(** * boosting_in_sklearn.ipynb: the notebook as a sequence of library calls

    The notebook loads [COMBO17.csv] into a pandas frame, drops the rows with
    missing values, collects the columns correlated with [Mcz], and fits,
    cross-validates and scores boosting estimators of scikit-learn and
    xgboost.  The frame operations the notebook applies are embedded as
    functions on lists; the estimators, the splitter, the correlation and the
    CSV reader are third-party code and enter as the fields of a [Library]
    record.  Cells run in a state-and-exception monad over the kernel's
    namespace, the log of library calls and the displayed outputs. *)

From Stdlib Require Import Floats String List Bool Arith ZArith Lia.
Import ListNotations.
Local Open Scope string_scope.
Local Open Scope list_scope.

(** ** Frames *)

Module Pandas.

(** A table cell: a float64 (a missing value is NaN) or a boolean. *)
Inductive cell :=
| Num (f : float)
| Boolean (b : bool).

Definition isna (c : cell) : bool :=
  match c with
  | Num f => PrimFloat.is_nan f
  | Boolean _ => false
  end.

(** [series > 0.5], element-wise; a boolean compares as 0 or 1. *)
Definition gt_half (c : cell) : bool :=
  match c with
  | Num f => (0.5 <? f)%float
  | Boolean b => b
  end.

(** A row carries its index label and one cell per column. *)
Definition row : Type := nat * list cell.

Record DataFrame := mkFrame {
  columns : list string;
  rows : list row
}.

Definition Series : Type := list cell.
Definition matrix : Type := list (list cell).

Definition has_missing (r : row) : bool := existsb isna (snd r).

(** [df.dropna()] *)
Definition dropna (df : DataFrame) : DataFrame :=
  mkFrame (columns df) (filter (fun r => negb (has_missing r)) (rows df)).

(** [df.isnull().sum().sum()] *)
Definition isnull_sum (df : DataFrame) : nat :=
  list_sum (map (fun r => length (filter isna (snd r))) (rows df)).

(** [df.head()] *)
Definition head (df : DataFrame) : DataFrame :=
  mkFrame (columns df) (firstn 5 (rows df)).

(** Position of a column label. *)
Fixpoint position (name : string) (cols : list string) : option nat :=
  match cols with
  | [] => None
  | c :: cols' =>
      if String.eqb c name then Some 0
      else option_map S (position name cols')
  end.

Definition cell_at (i : nat) (r : row) : cell := nth i (snd r) (Num nan).

(** [df[name]]: [None] stands for the [KeyError]. *)
Definition getitem (df : DataFrame) (name : string) : option Series :=
  option_map (fun i => map (cell_at i) (rows df)) (position name (columns df)).

(** [df[names]] *)
Fixpoint positions (names cols : list string) : option (list nat) :=
  match names with
  | [] => Some []
  | n :: names' =>
      match position n cols, positions names' cols with
      | Some i, Some l => Some (i :: l)
      | _, _ => None
      end
  end.

Definition getitems (df : DataFrame) (names : list string) : option DataFrame :=
  option_map
    (fun l => mkFrame names
                (map (fun r => (fst r, map (fun i => cell_at i r) l)) (rows df)))
    (positions names (columns df)).

Fixpoint replace_nth {A} (i : nat) (x : A) (l : list A) : list A :=
  match i, l with
  | _, [] => []
  | 0, _ :: l' => x :: l'
  | S i', a :: l' => a :: replace_nth i' x l'
  end.

(** One row of [df[name] = values]: the cell at an existing position is
    overwritten, a new column is appended on the right. *)
Definition set_cell (pos : option nat) (r : row) (v : cell) : row :=
  match pos with
  | Some i => (fst r, replace_nth i v (snd r))
  | None => (fst r, snd r ++ [v])
  end.

Fixpoint set_cells (pos : option nat) (rs : list row) (vs : Series) : list row :=
  match rs, vs with
  | r :: rs', v :: vs' => set_cell pos r v :: set_cells pos rs' vs'
  | _, _ => rs
  end.

(** [df[name] = values], for values that carry the frame's own index. *)
Definition setitem (df : DataFrame) (name : string) (vs : Series) : DataFrame :=
  let pos := position name (columns df) in
  mkFrame (match pos with
           | Some _ => columns df
           | None => columns df ++ [name]
           end)
          (set_cells pos (rows df) vs).

(** [series.values.reshape(-1, 1)] *)
Definition reshape_column (s : Series) : matrix := map (fun c => [c]) s.

End Pandas.
Export Pandas.

(** ** Objects of the notebook *)

Inductive exn :=
| FileNotFoundError
| ParserError
| KeyError (key : string)
| NameError (name : string)
| TypeError
| NotFittedError
| ValueError (msg : string).

Inductive est_kind :=
| AdaBoostRegressor
| XGBRegressor
| AdaBoostClassifier
| GradientBoostingClassifier.

Inductive param :=
| PInt (n : Z)
| PStr (s : string).

Definition params : Type := list (string * param).
Definition param_grid : Type := list (string * list param).

(** The source of randomness of a library call: a [RandomState] built from
    the seed passed as [random_state], or numpy's global generator in the
    state the process left it in. *)
Inductive rng :=
| RandomState (seed : Z)
| GlobalRng (state : Z).

(** What [train_test_split] returns, in the order the notebook unpacks it. *)
Record split := mkSplit {
  X_train : matrix;
  X_test : matrix;
  Y_train : Series;
  Y_test : Series
}.

Inductive event :=
| ReadCsv (path : string)
| TrainTestSplit (r : rng) (X : matrix) (y : Series)
| Fit (name : string) (X : matrix) (y : Series)
| GridFit (name : string) (X : matrix) (y : Series)
| CrossValScore (name : string) (X : matrix) (y : Series) (cv : nat)
| Score (name : string) (X : matrix) (y : Series)
| Predict (name : string) (X : matrix)
| Metric (metric : string) (y_true y_pred : Series).

Section Objects.

(** The fitted state of an estimator is the library's own. *)
Variable fitted : Type.

Record estimator := mkEstimator {
  kind : est_kind;
  random_state : option Z;
  objective : option string;
  model : option fitted
}.

(** [sklearn.base.clone]: same constructor arguments, nothing fitted. *)
Definition clone (e : estimator) : estimator :=
  mkEstimator (kind e) (random_state e) (objective e) None.

Definition fitted_with (e : estimator) (f : fitted) : estimator :=
  mkEstimator (kind e) (random_state e) (objective e) (Some f).

Record GridSearchCV := mkGridSearchCV {
  gs_estimator : estimator;
  gs_param_grid : param_grid;
  gs_cv : nat;
  gs_best : option (params * fitted)
}.

Inductive value :=
| VFrame (df : DataFrame)
| VSeries (s : Series)
| VMatrix (m : matrix)
| VNames (l : list string)
| VEstimator (e : estimator)
| VGridSearch (g : GridSearchCV)
| VNat (n : nat)
| VFloat (f : float)
| VFloats (l : list float)
| VCorr (labels : list string) (entries : list (list float))
| VCounts (m : list (list nat))
| VParams (p : params)
| VPlot (name : string) (data : list (list cell)).

(** The third-party functions the notebook calls.  Each returns the
    exception it raises or its result.  Every estimator the notebook
    constructs carries its own [random_state], and the folds of [cv=5] are
    not shuffled, so the estimators' methods, the cross-validation and the
    grid search are functions of their arguments; the splitter alone is
    handed its source of randomness. *)
Record Library := mkLibrary {
  read_csv : string -> exn + DataFrame;
  (** entry [a][b] of [df.corr()] *)
  corr : DataFrame -> string -> string -> float;
  train_test_split : rng -> matrix -> Series -> exn + split;
  fit : estimator -> matrix -> Series -> exn + fitted;
  predict : estimator -> matrix -> exn + Series;
  score : estimator -> matrix -> Series -> exn + float;
  cross_val_score : estimator -> matrix -> Series -> nat -> exn + list float;
  grid_search_fit : GridSearchCV -> matrix -> Series -> exn + params * fitted;
  precision_score : Series -> Series -> exn + float;
  recall_score : Series -> Series -> exn + float;
  confusion_matrix : Series -> Series -> exn + list (list nat)
}.

(** ** The kernel *)

Definition namespace : Type := list (string * value).

Fixpoint lookup (name : string) (ns : namespace) : option value :=
  match ns with
  | [] => None
  | (k, v) :: ns' => if String.eqb k name then Some v else lookup name ns'
  end.

Fixpoint assign (name : string) (v : value) (ns : namespace) : namespace :=
  match ns with
  | [] => [(name, v)]
  | (k, w) :: ns' =>
      if String.eqb k name then (name, v) :: ns'
      else (k, w) :: assign name v ns'
  end.

Record kernel := mkKernel {
  ns : namespace;
  log : list event;
  out : list value;
  np_random : Z
}.

Definition M (A : Type) : Type := kernel -> (exn + A) * kernel.

Definition ret {A} (a : A) : M A := fun k => (inr a, k).

Definition raise {A} (e : exn) : M A := fun k => (inl e, k).

Definition bind {A B} (c : M A) (f : A -> M B) : M B :=
  fun k =>
    match c k with
    | (inl e, k') => (inl e, k')
    | (inr a, k') => f a k'
    end.

End Objects.

Arguments mkEstimator {fitted}.
Arguments kind {fitted}.
Arguments random_state {fitted}.
Arguments objective {fitted}.
Arguments model {fitted}.
Arguments clone {fitted}.
Arguments fitted_with {fitted}.
Arguments mkGridSearchCV {fitted}.
Arguments gs_estimator {fitted}.
Arguments gs_param_grid {fitted}.
Arguments gs_cv {fitted}.
Arguments gs_best {fitted}.
Arguments VFrame {fitted}.
Arguments VSeries {fitted}.
Arguments VMatrix {fitted}.
Arguments VNames {fitted}.
Arguments VEstimator {fitted}.
Arguments VGridSearch {fitted}.
Arguments VNat {fitted}.
Arguments VFloat {fitted}.
Arguments VFloats {fitted}.
Arguments VCorr {fitted}.
Arguments VCounts {fitted}.
Arguments VParams {fitted}.
Arguments VPlot {fitted}.
Arguments mkLibrary {fitted}.
Arguments read_csv {fitted}.
Arguments corr {fitted}.
Arguments train_test_split {fitted}.
Arguments fit {fitted}.
Arguments predict {fitted}.
Arguments score {fitted}.
Arguments cross_val_score {fitted}.
Arguments grid_search_fit {fitted}.
Arguments precision_score {fitted}.
Arguments recall_score {fitted}.
Arguments confusion_matrix {fitted}.
Arguments lookup {fitted}.
Arguments assign {fitted}.
Arguments mkKernel {fitted}.
Arguments ns {fitted}.
Arguments log {fitted}.
Arguments out {fitted}.
Arguments np_random {fitted}.
Arguments ret {fitted A}.
Arguments raise {fitted A}.
Arguments bind {fitted A B}.

Declare Scope nb_scope.
Delimit Scope nb_scope with nb.
Notation "x <- c ;; k" := (bind c (fun x => k))
  (at level 61, c at next level, right associativity) : nb_scope.
Notation "c ;;; k" := (bind c (fun _ => k))
  (at level 61, right associativity) : nb_scope.

(** ** The cells *)

Section Cells.

Context {fitted : Type}.
Variable L : Library fitted.

Local Open Scope nb_scope.

Local Abbreviation M := (M fitted).

(** Reading a name of the namespace. *)
Definition name (x : string) : M (value fitted) :=
  fun k =>
    match lookup x (ns k) with
    | Some v => (inr v, k)
    | None => (inl (NameError x), k)
    end.

(** [x = v] *)
Definition store (x : string) (v : value fitted) : M unit :=
  fun k => (inr tt, mkKernel (assign x v (ns k)) (log k) (out k) (np_random k)).

(** The value a cell ends with is displayed. *)
Definition display (v : value fitted) : M unit :=
  fun k => (inr tt, mkKernel (ns k) (log k) (out k ++ [v]) (np_random k)).

(** A call into the library: logged, then its result or its exception. *)
Definition call {A} (ev : event) (r : exn + A) : M A :=
  fun k =>
    (r, mkKernel (ns k) (log k ++ [ev]) (out k) (np_random k)).

(** A call without [random_state] draws from numpy's global generator.  The
    second split is the only such call, so the state it leaves is not
    tracked. *)
Definition global_rng : M rng := fun k => (inr (GlobalRng (np_random k)), k).

Definition frame (x : string) : M DataFrame :=
  v <- name x ;;
  match v with VFrame df => ret df | _ => raise TypeError end.

Definition series (x : string) : M Series :=
  v <- name x ;;
  match v with VSeries s => ret s | _ => raise TypeError end.

Definition array (x : string) : M matrix :=
  v <- name x ;;
  match v with VMatrix m => ret m | _ => raise TypeError end.

Definition names (x : string) : M (list string) :=
  v <- name x ;;
  match v with VNames l => ret l | _ => raise TypeError end.

Definition est (x : string) : M (estimator fitted) :=
  v <- name x ;;
  match v with VEstimator e => ret e | _ => raise TypeError end.

Definition search (x : string) : M (GridSearchCV fitted) :=
  v <- name x ;;
  match v with VGridSearch g => ret g | _ => raise TypeError end.

(** [df[col]] *)
Definition column (df : DataFrame) (col : string) : M Series :=
  match getitem df col with
  | Some s => ret s
  | None => raise (KeyError col)
  end.

(** [for x in l: body] *)
Fixpoint for_each {A} (l : list A) (body : A -> M unit) : M unit :=
  match l with
  | [] => ret tt
  | a :: l' => body a ;;; for_each l' body
  end.

(** In [4]: [galaxies = pd.read_csv('COMBO17.csv'); galaxies.head()] *)
Definition cell_4 : M unit :=
  df <- call (ReadCsv "COMBO17.csv") (read_csv L "COMBO17.csv") ;;
  store "galaxies" (VFrame df) ;;;
  galaxies <- frame "galaxies" ;;
  display (VFrame (head galaxies)).

(** In [6]: [galaxies.columns] *)
Definition cell_6 : M unit :=
  galaxies <- frame "galaxies" ;;
  display (VNames (columns galaxies)).

(** In [7]: [galaxies.isnull().sum().sum()] *)
Definition cell_7 : M unit :=
  galaxies <- frame "galaxies" ;;
  display (VNat (isnull_sum galaxies)).

(** In [8]: [galaxies = galaxies.dropna()] *)
Definition cell_8 : M unit :=
  galaxies <- frame "galaxies" ;;
  store "galaxies" (VFrame (dropna galaxies)).

(** [galaxies.corr()['Mcz']]: the index of the correlation matrix is the
    frame's columns, and a frame without the column raises. *)
Definition corr_Mcz : M (list string * (string -> float)) :=
  galaxies <- frame "galaxies" ;;
  match position "Mcz" (columns galaxies) with
  | Some _ => ret (columns galaxies, corr L galaxies "Mcz")
  | None => raise (KeyError "Mcz")
  end.

(** In [10]:
<<
preds = []
for ind in galaxies.corr()['Mcz'].index:
    if abs(galaxies.corr()['Mcz'][ind]) > 0.5:
        preds.append(ind)
>> *)
Definition loop_body (ind : string) : M unit :=
  c <- corr_Mcz ;;
  if (0.5 <? abs (snd c ind))%float then
    preds <- names "preds" ;;
    store "preds" (VNames (preds ++ [ind]))
  else ret tt.

Definition cell_10 : M unit :=
  store "preds" (VNames []) ;;;
  c <- corr_Mcz ;;
  for_each (fst c) loop_body.

(** In [11]: [galaxies[preds].corr()] *)
Definition cell_11 : M unit :=
  galaxies <- frame "galaxies" ;;
  preds <- names "preds" ;;
  match getitems galaxies preds with
  | Some sub =>
      display (VCorr preds
                 (map (fun a => map (fun b => corr L sub a b) preds) preds))
  | None => raise (KeyError "preds")
  end.

(** In [13]: [x = galaxies['S280MAG']; y = galaxies['Mcz']] *)
Definition cell_13 : M unit :=
  galaxies <- frame "galaxies" ;;
  x <- column galaxies "S280MAG" ;;
  store "x" (VSeries x) ;;;
  galaxies <- frame "galaxies" ;;
  y <- column galaxies "Mcz" ;;
  store "y" (VSeries y).

(** In [15]: [x_rev = x.values.reshape(-1, 1)] *)
Definition cell_15 : M unit :=
  x <- series "x" ;;
  store "x_rev" (VMatrix (reshape_column x)).

(** In [16]: [mpl.pyplot.scatter(x_rev, y)] *)
Definition cell_16 : M unit :=
  x_rev <- array "x_rev" ;;
  y <- series "y" ;;
  display (VPlot "scatter" (x_rev ++ [y])).

(** [a, b, c, d = train_test_split(X, y, ...)] *)
Definition unpack (s : split) (a b c d : string) : M unit :=
  store a (VMatrix (X_train s)) ;;;
  store b (VMatrix (X_test s)) ;;;
  store c (VSeries (Y_train s)) ;;;
  store d (VSeries (Y_test s)).

(** In [17]:
    [x_train, x_test, y_train, y_test = train_test_split(x_rev, y, random_state=42)] *)
Definition cell_17 : M unit :=
  x_rev <- array "x_rev" ;;
  y <- series "y" ;;
  s <- call (TrainTestSplit (RandomState 42) x_rev y)
            (train_test_split L (RandomState 42) x_rev y) ;;
  unpack s "x_train" "x_test" "y_train" "y_test".

(** [m.fit(X, y)]: the estimator object is fitted in place and displayed. *)
Definition do_fit (m X y : string) : M unit :=
  e <- est m ;;
  Xv <- array X ;;
  yv <- series y ;;
  f <- call (Fit m Xv yv) (fit L e Xv yv) ;;
  store m (VEstimator (fitted_with e f)) ;;;
  display (VEstimator (fitted_with e f)).

(** [cross_val_score(m, X, y, cv=cv)] *)
Definition do_cross_val_score (m X y : string) (cv : nat) : M unit :=
  e <- est m ;;
  Xv <- array X ;;
  yv <- series y ;;
  scores <- call (CrossValScore m Xv yv cv) (cross_val_score L e Xv yv cv) ;;
  display (VFloats scores).

(** In [18]: [abr = AdaBoostRegressor(random_state=42); abr.fit(x_train, y_train)] *)
Definition cell_18 : M unit :=
  store "abr" (VEstimator (mkEstimator AdaBoostRegressor (Some 42%Z) None None)) ;;;
  do_fit "abr" "x_train" "y_train".

(** In [19]: [cross_val_score(abr, x_test, y_test, cv=5)] *)
Definition cell_19 : M unit :=
  do_cross_val_score "abr" "x_test" "y_test" 5.

(** In [21]:
<<
gs = GridSearchCV(estimator=abr,
                  param_grid={'n_estimators': [25, 50, 100],
                              'loss': ['linear', 'square']}, cv=5)
>> *)
Definition cell_21 : M unit :=
  abr <- est "abr" ;;
  store "gs"
    (VGridSearch
       (mkGridSearchCV abr
          [("n_estimators", [PInt 25; PInt 50; PInt 100]);
           ("loss", [PStr "linear"; PStr "square"])]
          5 None)).

(** In [22]: [gs.fit(x_train, y_train)] *)
Definition cell_22 : M unit :=
  gs <- search "gs" ;;
  x_train <- array "x_train" ;;
  y_train <- series "y_train" ;;
  best <- call (GridFit "gs" x_train y_train)
               (grid_search_fit L gs x_train y_train) ;;
  let gs' := mkGridSearchCV (gs_estimator gs) (gs_param_grid gs) (gs_cv gs)
                          (Some best) in
  store "gs" (VGridSearch gs') ;;;
  display (VGridSearch gs').

(** In [23]: [gs.best_params_] *)
Definition cell_23 : M unit :=
  gs <- search "gs" ;;
  match gs_best gs with
  | Some best => display (VParams (fst best))
  | None => raise NotFittedError
  end.

(** In [25]:
<<
grad_boost = xgboost.XGBRegressor(random_state=42, objective='reg:squarederror')
grad_boost.fit(x_train, y_train)
>> *)
Definition cell_25 : M unit :=
  store "grad_boost"
    (VEstimator
       (mkEstimator XGBRegressor (Some 42%Z) (Some "reg:squarederror") None)) ;;;
  do_fit "grad_boost" "x_train" "y_train".

(** In [26]: [cross_val_score(grad_boost, x_test, y_test, cv=5)] *)
Definition cell_26 : M unit :=
  do_cross_val_score "grad_boost" "x_test" "y_test" 5.

(** In [28]: [galaxies['Mcz'].hist()] *)
Definition cell_28 : M unit :=
  galaxies <- frame "galaxies" ;;
  mcz <- column galaxies "Mcz" ;;
  display (VPlot "hist" [mcz]).

(** In [30]: [galaxies['bool'] = galaxies['Mcz'] > 0.5] *)
Definition cell_30 : M unit :=
  galaxies <- frame "galaxies" ;;
  mcz <- column galaxies "Mcz" ;;
  galaxies <- frame "galaxies" ;;
  store "galaxies"
    (VFrame (setitem galaxies "bool" (map (fun c => Boolean (gt_half c)) mcz))).

(** In [31]:
    [x_train2, x_test2, y_train2, y_test2 = train_test_split(x_rev, galaxies['bool'])] *)
Definition cell_31 : M unit :=
  x_rev <- array "x_rev" ;;
  galaxies <- frame "galaxies" ;;
  label <- column galaxies "bool" ;;
  r <- global_rng ;;
  s <- call (TrainTestSplit r x_rev label) (train_test_split L r x_rev label) ;;
  unpack s "x_train2" "x_test2" "y_train2" "y_test2".

(** In [32]: [abc = AdaBoostClassifier(random_state=42); abc.fit(x_train2, y_train2)] *)
Definition cell_32 : M unit :=
  store "abc" (VEstimator (mkEstimator AdaBoostClassifier (Some 42%Z) None None)) ;;;
  do_fit "abc" "x_train2" "y_train2".

(** [m.score(X, y)] *)
Definition do_score (m X y : string) : M unit :=
  e <- est m ;;
  Xv <- array X ;;
  yv <- series y ;;
  s <- call (Score m Xv yv) (score L e Xv yv) ;;
  display (VFloat s).

(** [m.predict(X)] *)
Definition do_predict (m X : string) : M Series :=
  e <- est m ;;
  Xv <- array X ;;
  call (Predict m Xv) (predict L e Xv).

(** [precision_score(y, m.predict(X))] and [recall_score(y, m.predict(X))]:
    the arguments are evaluated left to right. *)
Definition do_metric (metric : string)
    (f : Series -> Series -> exn + float) (y m X : string) : M unit :=
  yv <- series y ;;
  pred <- do_predict m X ;;
  s <- call (Metric metric yv pred) (f yv pred) ;;
  display (VFloat s).

(** In [33]: [abc.score(x_test2, y_test2)] *)
Definition cell_33 : M unit := do_score "abc" "x_test2" "y_test2".

(** In [34]: [precision_score(y_test2, abc.predict(x_test2))] *)
Definition cell_34 : M unit :=
  do_metric "precision_score" (precision_score L) "y_test2" "abc" "x_test2".

(** In [35]: [recall_score(y_test2, abc.predict(x_test2))] *)
Definition cell_35 : M unit :=
  do_metric "recall_score" (recall_score L) "y_test2" "abc" "x_test2".

(** In [36]: [gbc = GradientBoostingClassifier(random_state=42); gbc.fit(x_test2, y_test2)] *)
Definition cell_36 : M unit :=
  store "gbc"
    (VEstimator (mkEstimator GradientBoostingClassifier (Some 42%Z) None None)) ;;;
  do_fit "gbc" "x_test2" "y_test2".

(** In [37]: [gbc.score(x_test2, y_test2)] *)
Definition cell_37 : M unit := do_score "gbc" "x_test2" "y_test2".

(** In [38]: [precision_score(y_test2, gbc.predict(x_test2))] *)
Definition cell_38 : M unit :=
  do_metric "precision_score" (precision_score L) "y_test2" "gbc" "x_test2".

(** In [39]: [recall_score(y_test2, gbc.predict(x_test2))] *)
Definition cell_39 : M unit :=
  do_metric "recall_score" (recall_score L) "y_test2" "gbc" "x_test2".

(** In [40]: [confusion_matrix(y_test2, gbc.predict(x_test2))] *)
Definition cell_40 : M unit :=
  y_test2 <- series "y_test2" ;;
  pred <- do_predict "gbc" "x_test2" ;;
  m <- call (Metric "confusion_matrix" y_test2 pred)
            (confusion_matrix L y_test2 pred) ;;
  display (VCounts m).

(** ** The notebook, top to bottom *)

(** The code cells in the order of the file, each under its position. *)
Definition load_cells : list (nat * M unit) :=
  [(4, cell_4); (6, cell_6); (7, cell_7); (8, cell_8)].

Definition correlation_cells : list (nat * M unit) :=
  [(10, cell_10); (11, cell_11); (13, cell_13); (15, cell_15); (16, cell_16)].

Definition regression_cells : list (nat * M unit) :=
  [(17, cell_17); (18, cell_18); (19, cell_19); (21, cell_21); (22, cell_22);
   (23, cell_23); (25, cell_25); (26, cell_26)].

Definition classification_cells : list (nat * M unit) :=
  [(28, cell_28); (30, cell_30); (31, cell_31); (32, cell_32); (33, cell_33);
   (34, cell_34); (35, cell_35); (36, cell_36); (37, cell_37); (38, cell_38);
   (39, cell_39); (40, cell_40)].

Definition notebook : list (nat * M unit) :=
  load_cells ++ correlation_cells ++ regression_cells ++ classification_cells.

(** What one run leaves behind: the cells that were started, the exception
    that stopped the run if one was raised, and the kernel. *)
Record run_result := mkRun {
  executed : list nat;
  raised : option exn;
  final : kernel fitted
}.

(** Running the cells in order stops at the first exception: no cell
    catches one, and the kernel keeps what the earlier cells bound. *)
Fixpoint run_cells (cells : list (nat * M unit)) (k : kernel fitted) : run_result :=
  match cells with
  | [] => mkRun [] None k
  | (i, c) :: cells' =>
      match c k with
      | (inl e, k') => mkRun [i] (Some e) k'
      | (inr _, k') =>
          match run_cells cells' k' with
          | mkRun rest e k'' => mkRun (i :: rest) e k''
          end
      end
  end.

(** A fresh kernel: nothing bound, nothing logged, and the global generator
    in the state the operating system's entropy gave it. *)
Definition fresh (entropy : Z) : kernel fitted := mkKernel [] [] [] entropy.

Definition run (entropy : Z) : run_result := run_cells notebook (fresh entropy).

End Cells.

Arguments mkRun {fitted}.
Arguments executed {fitted}.
Arguments raised {fitted}.
Arguments final {fitted}.

(** ** A reference library

    An executable stand-in for the third-party functions, so that the
    notebook can be run on concrete tables: Pearson's coefficient computed
    in two passes as pandas does, a splitter that holds out a quarter of the
    rows after rotating them by the generator's state, estimators that
    predict the majority label or the mean of what they were fitted on
    (gradient boosting raising on labels of one class, as scikit-learn's
    does), and unshuffled k-fold cross-validation on clones. *)

Module Reference.

Local Open Scope float_scope.

Definition to_float (c : cell) : float :=
  match c with
  | Num f => f
  | Boolean true => 1
  | Boolean false => 0
  end.

Definition fsum (l : list float) : float := fold_left PrimFloat.add l 0.

Definition fcount {A} (l : list A) : float := fsum (map (fun _ => 1) l).

Definition mean (l : list float) : float := fsum l / fcount l.

(** The two passes of pandas' [nancorr] on a pair of columns without
    missing values. *)
Definition pearson (xs ys : list float) : float :=
  let mx := mean xs in
  let my := mean ys in
  let dx := map (fun x => x - mx) xs in
  let dy := map (fun y => y - my) ys in
  let sxy := fsum (map (fun p => fst p * snd p) (combine dx dy)) in
  let sxx := fsum (map (fun d => d * d) dx) in
  let syy := fsum (map (fun d => d * d) dy) in
  let divisor := PrimFloat.sqrt (sxx * syy) in
  if divisor =? 0 then nan else sxy / divisor.

Definition corr (df : DataFrame) (a b : string) : float :=
  match getitem df a, getitem df b with
  | Some xs, Some ys => pearson (map to_float xs) (map to_float ys)
  | _, _ => nan
  end.

Fixpoint rotate {A} (n : nat) (l : list A) : list A :=
  match n, l with
  | S n', a :: l' => rotate n' (l' ++ [a])
  | _, _ => l
  end.

Definition rng_state (r : rng) : Z :=
  match r with
  | RandomState seed => seed
  | GlobalRng state => state
  end.

(** The test set is a quarter of the rows, rounded up. *)
Definition n_test (n : nat) : nat := (n + 3) / 4.

Definition permute {A} (r : rng) (l : list A) : list A :=
  rotate (Z.to_nat (rng_state r mod Z.of_nat (length l))) l.

Definition train_test_split (r : rng) (X : matrix) (y : Series) : exn + split :=
  let t := n_test (length X) in
  if (length X <=? t)%nat then inl (ValueError "the resulting train set will be empty")
  else
    inr (mkSplit (skipn t (permute r X)) (firstn t (permute r X))
                 (skipn t (permute r y)) (firstn t (permute r y))).

(** A fitted model remembers the targets it was fitted on. *)
Definition fitted : Type := Series.

Definition is_classifier (k : est_kind) : bool :=
  match k with
  | AdaBoostClassifier | GradientBoostingClassifier => true
  | _ => false
  end.

Definition single_class (y : Series) : bool :=
  forallb gt_half y || forallb (fun c => negb (gt_half c)) y.

(** Gradient boosting refuses labels of a single class. *)
Definition fit (e : estimator fitted) (X : matrix) (y : Series) : exn + fitted :=
  match X with
  | [] => inl (ValueError "Found array with 0 sample(s)")
  | _ =>
      match kind e with
      | GradientBoostingClassifier =>
          if single_class y then
            inl (ValueError "y contains 1 class, while a minimum of 2 classes are required")
          else inr y
      | _ => inr y
      end
  end.

Definition majority (y : Series) : bool :=
  (length y - length (filter gt_half y) <? length (filter gt_half y))%nat.

Definition constant (e : estimator fitted) (y : Series) : cell :=
  if is_classifier (kind e) then Boolean (majority y)
  else Num (mean (map to_float y)).

Definition predict (e : estimator fitted) (X : matrix) : exn + Series :=
  match model e with
  | Some y => inr (map (fun _ => constant e y) X)
  | None => inl NotFittedError
  end.

Definition agree (a b : cell) : bool := Bool.eqb (gt_half a) (gt_half b).

Definition accuracy (y_true y_pred : Series) : float :=
  fcount (filter (fun p => agree (fst p) (snd p)) (combine y_true y_pred))
  / fcount y_true.

Definition r2 (y_true y_pred : Series) : float :=
  let t := map to_float y_true in
  let m := mean t in
  1 - fsum (map (fun p => (fst p - to_float (snd p)) * (fst p - to_float (snd p)))
                (combine t y_pred))
      / fsum (map (fun v => (v - m) * (v - m)) t).

Definition score (e : estimator fitted) (X : matrix) (y : Series) : exn + float :=
  match predict e X with
  | inl x => inl x
  | inr p => inr (if is_classifier (kind e) then accuracy y p else r2 y p)
  end.

(** Unshuffled k-fold: consecutive folds, the first [n mod k] one longer. *)
Definition fold_sizes (n k : nat) : list nat :=
  map (fun i => (n / k + if i <? n mod k then 1 else 0)%nat) (seq 0 k).

Fixpoint folds {A} (sizes : list nat) (before rest : list A)
  : list (list A * list A) :=
  match sizes with
  | [] => []
  | s :: sizes' =>
      (before ++ skipn s rest, firstn s rest)
        :: folds sizes' (before ++ firstn s rest) (skipn s rest)
  end.

Fixpoint collect {A} (l : list (exn + A)) : exn + list A :=
  match l with
  | [] => inr []
  | inl e :: _ => inl e
  | inr a :: l' =>
      match collect l' with
      | inl e => inl e
      | inr r => inr (a :: r)
      end
  end.

Definition cross_val_score (e : estimator fitted) (X : matrix) (y : Series)
    (cv : nat) : exn + list float :=
  if (length X <? cv)%nat then
    inl (ValueError "Cannot have number of splits greater than the number of samples")
  else
    collect
      (map (fun f =>
              match fit (clone e) (fst (fst f)) (fst (snd f)) with
              | inl x => inl x
              | inr m => score (fitted_with (clone e) m) (snd (fst f)) (snd (snd f))
              end)
           (combine (folds (fold_sizes (length X) cv) [] X)
                    (folds (fold_sizes (length X) cv) [] y))).

(** The search keeps the first value of every parameter and refits. *)
Definition grid_search_fit (g : GridSearchCV fitted) (X : matrix) (y : Series)
  : exn + params * fitted :=
  match fit (clone (gs_estimator g)) X y with
  | inl x => inl x
  | inr m =>
      inr (flat_map (fun p => match snd p with
                              | v :: _ => [(fst p, v)]
                              | [] => []
                              end) (gs_param_grid g), m)
  end.

Definition tally (t p : bool) (y_true y_pred : Series) : nat :=
  length (filter (fun c => Bool.eqb (gt_half (fst c)) t && Bool.eqb (gt_half (snd c)) p)
                 (combine y_true y_pred)).

Definition ratio (a b : nat) : float :=
  match b with
  | O => 0
  | _ => fcount (repeat tt a) / fcount (repeat tt b)
  end.

Definition precision_score (y_true y_pred : Series) : exn + float :=
  inr (ratio (tally true true y_true y_pred)
             (tally true true y_true y_pred + tally false true y_true y_pred)).

Definition recall_score (y_true y_pred : Series) : exn + float :=
  inr (ratio (tally true true y_true y_pred)
             (tally true true y_true y_pred + tally true false y_true y_pred)).

Definition confusion_matrix (y_true y_pred : Series) : exn + list (list nat) :=
  inr [[tally false false y_true y_pred; tally false true y_true y_pred];
       [tally true false y_true y_pred; tally true true y_true y_pred]].

(** The library over a file system that holds, under [COMBO17.csv], a file
    that parses to [file] or fails to. *)
Definition library (file : exn + DataFrame) : Library fitted :=
  mkLibrary
    (fun path => if String.eqb path "COMBO17.csv" then file
                 else inl FileNotFoundError)
    corr train_test_split fit predict score cross_val_score grid_search_fit
    precision_score recall_score confusion_matrix.

(** Eighteen galaxies, one of them with a magnitude missing. *)
Definition sample : DataFrame :=
  mkFrame ["Nr"; "Mcz"; "S280MAG"]
    [
     (0%nat, [Num 6; Num 0.5; Num (-17.0)]);
     (1%nat, [Num 11; Num 0.75; Num (-17.875)]);
     (2%nat, [Num 14; Num 1.1875; Num (-18.875)]);
     (3%nat, [Num 16; Num 0.0625; Num nan]);
     (4%nat, [Num 18; Num 0.5; Num (-16.375)]);
     (5%nat, [Num 23; Num 1.0; Num (-19.0)]);
     (6%nat, [Num 26; Num 1.0; Num (-18.75)]);
     (7%nat, [Num 29; Num 0.3125; Num (-15.625)]);
     (8%nat, [Num 31; Num 0.3125; Num (-16.25)]);
     (9%nat, [Num 33; Num 0.0625; Num (-14.375)]);
     (10%nat, [Num 37; Num 1.1875; Num (-18.75)]);
     (11%nat, [Num 40; Num 0.0625; Num (-14.75)]);
     (12%nat, [Num 44; Num 1.25; Num (-19.75)]);
     (13%nat, [Num 47; Num 0.875; Num (-18.25)]);
     (14%nat, [Num 48; Num 1.1875; Num (-19.625)]);
     (15%nat, [Num 51; Num 0.75; Num (-17.125)]);
     (16%nat, [Num 54; Num 0.3125; Num (-16.125)]);
     (17%nat, [Num 59; Num 0.5625; Num (-17.0)])]%float.

(** The sample with a column that is already named [bool]. *)
Definition flagged : DataFrame :=
  mkFrame (columns sample ++ ["bool"])
          (map (fun w : row => (fst w, snd w ++ [Num 1])) (rows sample)).

(** Seventeen galaxies, one of them at a redshift below one half. *)
Definition lopsided : DataFrame :=
  mkFrame ["Mcz"; "S280MAG"]
    [
     (0%nat, [Num 0.25; Num (-16)]);
     (1%nat, [Num 0.75; Num (-18.125)]);
     (2%nat, [Num 0.75; Num (-18.25)]);
     (3%nat, [Num 0.75; Num (-18.375)]);
     (4%nat, [Num 0.75; Num (-18.5)]);
     (5%nat, [Num 0.75; Num (-18.625)]);
     (6%nat, [Num 0.75; Num (-18.75)]);
     (7%nat, [Num 0.75; Num (-18.875)]);
     (8%nat, [Num 0.75; Num (-19)]);
     (9%nat, [Num 0.75; Num (-19.125)]);
     (10%nat, [Num 0.75; Num (-19.25)]);
     (11%nat, [Num 0.75; Num (-19.375)]);
     (12%nat, [Num 0.75; Num (-19.5)]);
     (13%nat, [Num 0.75; Num (-19.625)]);
     (14%nat, [Num 0.75; Num (-19.75)]);
     (15%nat, [Num 0.75; Num (-19.875)]);
     (16%nat, [Num 0.75; Num (-20)])]%float.

(** Two galaxies at the same redshift. *)
Definition flat : DataFrame :=
  mkFrame ["Mcz"; "S280MAG"]
    [(0%nat, [Num 0.75; Num (-17)]);
     (1%nat, [Num 0.75; Num (-18.5)])]%float.

End Reference.

(** ** Notions the properties are stated with *)

(** [l] is [l'] with some elements left out, the others in their order. *)
Inductive Subseq {A : Type} : list A -> list A -> Prop :=
| Subseq_nil : Subseq [] []
| Subseq_keep a l l' : Subseq l l' -> Subseq (a :: l) (a :: l')
| Subseq_skip a l l' : Subseq l l' -> Subseq l (a :: l').

(** Every row has one cell per column. *)
Definition rectangular (df : DataFrame) : Prop :=
  Forall (fun r : row => length (snd r) = length (columns df)) (rows df).

(** The cell of row [r] of [df] under the column [col]. *)
Definition cell_of (df : DataFrame) (col : string) (r : row) : option cell :=
  option_map (fun i => cell_at i r) (position col (columns df)).

(** The score arrays among the displayed outputs. *)
Definition score_arrays {fitted} (o : list (value fitted)) : list (list float) :=
  flat_map (fun v => match v with VFloats l => [l] | _ => [] end) o.

(** The single scores and the confusion matrix among the displayed outputs. *)
Definition scores {fitted} (o : list (value fitted)) : list (value fitted) :=
  filter (fun v => match v with VFloat _ | VCounts _ => true | _ => false end) o.

Section Prefixes.

Context {fitted : Type}.
Variable L : Library fitted.

(** The notebook down to the cell at position [n]. *)
Definition upto (n : nat) : list (nat * M fitted unit) :=
  filter (fun c => (fst c <=? n)%nat) (notebook L).

(** The kernel after each cell that was started. *)
Fixpoint states (cells : list (nat * M fitted unit)) (k : kernel fitted)
  : list (kernel fitted) :=
  match cells with
  | [] => []
  | (_, c) :: cells' =>
      match c k with
      | (inl _, k') => [k']
      | (inr _, k') => k' :: states cells' k'
      end
  end.

End Prefixes.

(** A row without missing values. *)
Definition complete (w : row) : Prop := forall c, In c (snd w) -> isna c = false.

(** Kernels that differ at most in the state of the global generator. *)
Definition same_but_rng {fitted} (k1 k2 : kernel fitted) : Prop :=
  ns k1 = ns k2 /\ log k1 = log k2 /\ out k1 = out k2.

(** Kernels that differ at most in what [preds] is bound to and in what
    was displayed. *)
Definition same_but_preds {fitted} (k1 k2 : kernel fitted) : Prop :=
  log k1 = log k2 /\ np_random k1 = np_random k2 /\
  forall x, x <> "preds" -> lookup x (ns k1) = lookup x (ns k2).

(** The library with another correlation in place of its own. *)
Definition with_corr {fitted} (c : DataFrame -> string -> string -> float)
    (L : Library fitted) : Library fitted :=
  mkLibrary (read_csv L) c (train_test_split L) (fit L) (predict L) (score L)
            (cross_val_score L) (grid_search_fit L) (precision_score L)
            (recall_score L) (confusion_matrix L).

(** Kernels that are one and the same, with [galaxies] bound to [v]. *)
Definition keeps {fitted} (v : value fitted) (k1 k2 : kernel fitted) : Prop :=
  k1 = k2 /\ lookup "galaxies" (ns k1) = Some v.

(** The cells between the cleaning and the labelling, and after the
    labelling. *)
Definition before_label {fitted} (L : Library fitted) : list (nat * M fitted unit) :=
  correlation_cells L ++ regression_cells L ++ [(28, cell_28)].

Definition after_label {fitted} (L : Library fitted) : list (nat * M fitted unit) :=
  [(31, cell_31 L); (32, cell_32 L); (33, cell_33 L); (34, cell_34 L);
   (35, cell_35 L); (36, cell_36 L); (37, cell_37 L); (38, cell_38 L);
   (39, cell_39 L); (40, cell_40 L)].

(** The cells down to the correlation analysis, and the cells that follow. *)
Definition head_cells {fitted} (L : Library fitted) : list (nat * M fitted unit) :=
  load_cells L ++ [(10, cell_10 L); (11, cell_11 L)].

Definition tail_cells {fitted} (L : Library fitted) : list (nat * M fitted unit) :=
  [(13, cell_13); (15, cell_15); (16, cell_16)]
    ++ regression_cells L ++ classification_cells L.

(** [galaxies] is the cleaned table, or the cleaned table with one more
    column, [bool], on the right of rows that are otherwise as they were. *)
Definition cleaned_or_labelled {fitted} (df : DataFrame) (k : kernel fitted) : Prop :=
  lookup "galaxies" (ns k) = Some (VFrame (dropna df)) \/
  exists g',
    lookup "galaxies" (ns k) = Some (VFrame g') /\
    columns g' = columns (dropna df) ++ ["bool"] /\
    Forall2 (fun w w' : row =>
               fst w' = fst w /\ exists b, snd w' = snd w ++ [Boolean b])
            (rows (dropna df)) (rows g').

(** C9 as the specification states it: from the row-drop on (the kernel
    after the fourth cell and every later one), whatever was loaded. *)
Definition gains_only_the_label {fitted} (L : Library fitted) (e : Z) : Prop :=
  forall df, read_csv L "COMBO17.csv" = inr df ->
    forall k, In k (skipn 3 (states (notebook L) (fresh e))) ->
      cleaned_or_labelled df k.

(** C7, first half, as the specification states it: two runs start the
    same cells. *)
Definition same_steps {fitted} (L : Library fitted) (e1 e2 : Z) : Prop :=
  executed (run L e1) = executed (run L e2).

(** C10, first half, as the specification states it: whenever cell 10
    completes, [preds] contains [Mcz]. *)
Definition preds_contain_Mcz {fitted} (L : Library fitted) (e : Z) : Prop :=
  raised (run_cells (upto L 10) (fresh e)) = None ->
  exists p,
    lookup "preds" (ns (final (run_cells (upto L 10) (fresh e)))) = Some (VNames p) /\
    In "Mcz" p.

(** The calls that fit a model, among the logged ones. *)
Definition fits (l : list event) : list event :=
  filter (fun ev => match ev with Fit _ _ _ | GridFit _ _ _ => true | _ => false end) l.

(** The calls that evaluate a model, among the logged ones. *)
Definition evaluations (l : list event) : list event :=
  filter (fun ev => match ev with
                    | CrossValScore _ _ _ _ | Score _ _ _ | Predict _ _
                    | Metric _ _ _ => true
                    | _ => false
                    end) l.

(** The reference library over the sample file. *)
Definition combo : Library Reference.fitted :=
  Reference.library (inr Reference.sample).

(** A table without a redshift column, and one without the magnitude. *)
Definition no_redshift : DataFrame :=
  mkFrame ["Nr"; "S280MAG"]
    [(0%nat, [Num 6; Num (-17)]); (1%nat, [Num 9; Num (-18.5)])]%float.

Definition no_magnitude : DataFrame :=
  mkFrame ["Nr"; "Mcz"]
    [(0%nat, [Num 6; Num 0.75]); (1%nat, [Num 9; Num 0.25])]%float.

(** Some call the notebook makes into the library raises [x]. *)
Definition library_raises {fitted} (L : Library fitted) (x : exn) : Prop :=
  read_csv L "COMBO17.csv" = inl x \/
  (exists r X y, train_test_split L r X y = inl x) \/
  (exists m X y, fit L m X y = inl x) \/
  (exists m X y cv, cross_val_score L m X y cv = inl x) \/
  (exists g X y, grid_search_fit L g X y = inl x) \/
  (exists m X y, score L m X y = inl x) \/
  (exists m X, predict L m X = inl x) \/
  (exists a b, precision_score L a b = inl x) \/
  (exists a b, recall_score L a b = inl x) \/
  (exists a b, confusion_matrix L a b = inl x).

Arguments library_raises : simpl never.

(** Kernels that are one and the same, with the namespace [n]. *)
Definition binds {fitted} (n : namespace fitted) (k1 k2 : kernel fitted) : Prop :=
  k1 = k2 /\ ns k1 = n.

(** The cells that end in an expression and assign nothing. *)
Definition expression_cells {fitted} (L : Library fitted)
  : list (nat * M fitted unit) :=
  [(6, cell_6); (7, cell_7); (11, cell_11 L); (16, cell_16); (19, cell_19 L);
   (23, cell_23); (26, cell_26 L); (28, cell_28); (33, cell_33 L);
   (34, cell_34 L); (35, cell_35 L); (37, cell_37 L); (38, cell_38 L);
   (39, cell_39 L); (40, cell_40 L)].

(** * Lemmas *)

(** ** Names and bindings *)

Section Bindings.

Context {fitted : Type}.
Implicit Types (ns : namespace fitted) (v : value fitted) (x y : string).

Lemma lookup_assign_eq x v ns : lookup x (assign x v ns) = Some v.
Proof.
  induction ns as [|[k w] ns IH]; simpl.
  - now rewrite String.eqb_refl.
  - destruct (String.eqb k x) eqn:E; simpl.
    + now rewrite String.eqb_refl.
    + now rewrite E.
Qed.

Lemma lookup_assign_neq x y v ns :
  x <> y -> lookup y (assign x v ns) = lookup y ns.
Proof.
  intros N. induction ns as [|[k w] ns IH]; simpl.
  - destruct (String.eqb_spec x y); [contradiction | reflexivity].
  - destruct (String.eqb_spec k x) as [->|Nk]; simpl.
    + destruct (String.eqb_spec x y); [contradiction | reflexivity].
    + destruct (String.eqb_spec k y); [reflexivity | exact IH].
Qed.

Lemma lookup_assign x y v ns :
  lookup y (assign x v ns) = if String.eqb x y then Some v else lookup y ns.
Proof.
  destruct (String.eqb_spec x y) as [->|N].
  - apply lookup_assign_eq.
  - now apply lookup_assign_neq.
Qed.

Lemma assign_assign x v w ns : assign x w (assign x v ns) = assign x w ns.
Proof.
  induction ns as [|[k u] ns IH]; simpl.
  - now rewrite String.eqb_refl.
  - destruct (String.eqb k x) eqn:E; simpl.
    + now rewrite String.eqb_refl.
    + now rewrite E, IH.
Qed.

Lemma assign_lookup_same x v ns : lookup x ns = Some v -> assign x v ns = ns.
Proof.
  induction ns as [|[k u] ns IH]; simpl; [discriminate|].
  destruct (String.eqb_spec k x) as [->|N]; intros H.
  - now inversion H.
  - now rewrite IH.
Qed.

End Bindings.

(** ** Frames: dropping rows, reading and writing columns *)

Section FrameFacts.

Lemma Subseq_filter {A} (f : A -> bool) (l : list A) : Subseq (filter f l) l.
Proof.
  induction l as [|a l IH]; simpl.
  - constructor.
  - destruct (f a); now constructor.
Qed.

Lemma Subseq_filter_greatest {A} (f : A -> bool) (l' l : list A) :
  Subseq l' l -> Forall (fun a => f a = true) l' -> Subseq l' (filter f l).
Proof.
  induction 1 as [|a l1 l2 S IH|a l1 l2 S IH]; intros F; simpl.
  - constructor.
  - inversion F as [|? ? Fa Fl]; subst. rewrite Fa. constructor. now apply IH.
  - destruct (f a); [constructor|]; now apply IH.
Qed.

Lemma dropna_columns df : columns (dropna df) = columns df.
Proof. reflexivity. Qed.

Lemma dropna_Subseq df : Subseq (rows (dropna df)) (rows df).
Proof. apply Subseq_filter. Qed.

Lemma dropna_In df r :
  In r (rows (dropna df)) <-> In r (rows df) /\ has_missing r = false.
Proof.
  unfold dropna; simpl. rewrite filter_In, negb_true_iff. tauto.
Qed.

Lemma dropna_greatest df l :
  Subseq l (rows df) -> Forall (fun r => has_missing r = false) l ->
  Subseq l (rows (dropna df)).
Proof.
  intros S F. apply Subseq_filter_greatest; [exact S|].
  eapply Forall_impl; [|exact F]. simpl. intros r ->. reflexivity.
Qed.

End FrameFacts.

Arguments dropna : simpl never.
Arguments getitem : simpl never.
Arguments getitems : simpl never.
Arguments setitem : simpl never.
Arguments head : simpl never.
Arguments isnull_sum : simpl never.
Arguments reshape_column : simpl never.

(** ** Running single cells *)

Section CellFacts.

Context {fitted : Type}.
Variable L : Library fitted.

(** The columns the loop of cell 10 appends, for the frame [g]. *)
Definition selected (g : DataFrame) : list string :=
  filter (fun ind => (0.5 <? abs (corr L g "Mcz" ind))%float) (columns g).

Lemma loop_body_run g i ind (k : kernel fitted) p :
  lookup "galaxies" (ns k) = Some (VFrame g) ->
  position "Mcz" (columns g) = Some i ->
  lookup "preds" (ns k) = Some (VNames p) ->
  loop_body L ind k
  = (inr tt,
     mkKernel
       (assign "preds"
          (VNames (p ++ filter (fun x => (0.5 <? abs (corr L g "Mcz" x))%float) [ind]))
          (ns k))
       (log k) (out k) (np_random k)).
Proof.
  intros Hg Hm Hp.
  unfold loop_body, corr_Mcz, frame, names, name, bind, store, ret.
  rewrite Hg, Hm. cbn [snd filter].
  destruct (0.5 <? abs (corr L g "Mcz" ind))%float.
  - now rewrite Hp.
  - rewrite app_nil_r, (assign_lookup_same _ _ _ Hp). now destruct k.
Qed.

Lemma preds_loop g i l : forall (k : kernel fitted) p,
  lookup "galaxies" (ns k) = Some (VFrame g) ->
  position "Mcz" (columns g) = Some i ->
  lookup "preds" (ns k) = Some (VNames p) ->
  for_each l (loop_body L) k
  = (inr tt,
     mkKernel
       (assign "preds"
          (VNames (p ++ filter (fun x => (0.5 <? abs (corr L g "Mcz" x))%float) l))
          (ns k))
       (log k) (out k) (np_random k)).
Proof.
  induction l as [|ind l IH]; intros k p Hg Hm Hp.
  - simpl. rewrite app_nil_r, (assign_lookup_same _ _ _ Hp).
    now destruct k.
  - simpl for_each. unfold bind.
    rewrite (loop_body_run g i ind k p Hg Hm Hp).
    rewrite (IH _ (p ++ filter (fun x => (0.5 <? abs (corr L g "Mcz" x))%float) [ind]));
      cbn [ns log out np_random].
    + rewrite assign_assign, <- app_assoc, <- filter_app. reflexivity.
    + rewrite lookup_assign_neq; [exact Hg | discriminate].
    + exact Hm.
    + apply lookup_assign_eq.
Qed.

Lemma cell_10_run (k : kernel fitted) g :
  lookup "galaxies" (ns k) = Some (VFrame g) ->
  cell_10 L k =
  match position "Mcz" (columns g) with
  | Some _ =>
      (inr tt,
       mkKernel (assign "preds" (VNames (selected g)) (ns k))
                (log k) (out k) (np_random k))
  | None =>
      (inl (KeyError "Mcz"),
       mkKernel (assign "preds" (VNames []) (ns k)) (log k) (out k) (np_random k))
  end.
Proof.
  intros Hg. unfold cell_10, corr_Mcz, frame, name, bind, store, ret.
  cbn [ns log out np_random].
  rewrite lookup_assign_neq by discriminate. rewrite Hg.
  destruct (position "Mcz" (columns g)) as [i|] eqn:Hm.
  - cbn [fst].
    rewrite (preds_loop g i (columns g) _ []); cbn [ns log out np_random].
    + now rewrite assign_assign.
    + rewrite lookup_assign_neq; [exact Hg | discriminate].
    + exact Hm.
    + apply lookup_assign_eq.
  - reflexivity.
Qed.

End CellFacts.

Arguments cell_10 : simpl never.

(** Symbolic execution of a run: reduce, and split on what each library
    call and each column access returns; a branch that raised contradicts
    a run assumed to complete. *)
Ltac symex :=
  repeat first
    [ progress cbn
    | match goal with
      | |- context [cell_10 ?L ?k] => erewrite (cell_10_run L k) by reflexivity
      | |- context [column _ _] => unfold column
      | |- Some _ = None -> _ => intros; discriminate
      | |- context [match ?c with inl _ => _ | inr _ => _ end] =>
          destruct c eqn:?
      | |- context [match ?c with Some _ => _ | None => _ end] =>
          destruct c eqn:?
      end ].

(** ** The threshold *)

Section Threshold.

Local Open Scope float_scope.

Lemma SFcompare_finite_pos m0 e0 x c :
  SFcompare x (S754_finite false m0 e0) = Some c ->
  SFcompare (S754_finite false m0 e0) x = Some (CompOpp c).
Proof.
  destruct x as [s| s | | s m e]; cbn [SFcompare]; try discriminate.
  - intros H; inversion H; subst. now destruct s.
  - intros H; inversion H; subst. now destruct s.
  - destruct s.
    + intros H; inversion H; reflexivity.
    + rewrite (Z.compare_antisym e e0).
      destruct (e ?= e0)%Z eqn:E; cbn [CompOpp]; intros H; inversion H; subst;
        cbn [CompOpp]; try reflexivity.
      rewrite Pos.compare_cont_antisym. reflexivity.
Qed.

Lemma Prim2SF_half : Prim2SF 0.5 = S754_finite false 4503599627370496 (-53).
Proof. vm_compute. reflexivity. Qed.

(** A float at or below one half is not strictly above it. *)
Lemma not_above_half x : (x <=? 0.5) = true -> (0.5 <? x) = false.
Proof.
  rewrite FloatAxioms.leb_spec, FloatAxioms.ltb_spec, Prim2SF_half.
  unfold SFleb, SFltb.
  destruct (SFcompare (Prim2SF x) _) as [c|] eqn:E; [|discriminate].
  rewrite (SFcompare_finite_pos _ _ _ _ E). now destruct c.
Qed.

(** Neither is NaN. *)
Lemma nan_not_above_half x : PrimFloat.is_nan x = true -> (0.5 <? x) = false.
Proof.
  unfold PrimFloat.is_nan. intros H. apply negb_true_iff in H.
  rewrite FloatAxioms.eqb_spec in H.
  rewrite FloatAxioms.ltb_spec, Prim2SF_half.
  unfold SFeqb in H. unfold SFltb.
  destruct (Prim2SF x) as [s| s | | s m e]; cbn [SFcompare] in *;
    try reflexivity.
  - destruct s; discriminate.
  - destruct s; rewrite Z.compare_refl, Pos.compare_cont_refl in H;
      discriminate.
Qed.

End Threshold.

(** ** Writing a column *)

Section SetItem.

Lemma position_lt x l i : position x l = Some i -> i < length l.
Proof.
  revert i. induction l as [|c l IH]; simpl; intros i; [discriminate|].
  destruct (String.eqb c x).
  - intros H; inversion H. lia.
  - destruct (position x l) as [j|]; simpl; [|discriminate].
    intros H; inversion H. specialize (IH j eq_refl). lia.
Qed.

Lemma position_None x l : position x l = None <-> ~ In x l.
Proof.
  induction l as [|c l IH]; simpl.
  - tauto.
  - destruct (String.eqb_spec c x) as [->|N].
    + split; [discriminate | intros H; exfalso; apply H; now left].
    + destruct (position x l) as [j|]; simpl.
      * split; [discriminate|]. intros H. exfalso. apply H. right.
        destruct (in_dec string_dec x l) as [I|I]; [exact I|].
        apply IH in I. discriminate.
      * split; [|reflexivity]. intros _ [E|I]; [congruence|].
        now apply (proj1 IH).
Qed.

Lemma position_Some_In x l i : position x l = Some i -> In x l.
Proof.
  intros H. destruct (in_dec string_dec x l) as [I|I]; [exact I|].
  apply position_None in I. congruence.
Qed.

Lemma position_app_new x l : position x l = None -> position x (l ++ [x]) = Some (length l).
Proof.
  induction l as [|c l IH]; simpl.
  - now rewrite String.eqb_refl.
  - destruct (String.eqb c x); [discriminate|].
    destruct (position x l); simpl; [discriminate|].
    intros _. now rewrite IH.
Qed.

Lemma position_app_old x y l i :
  position x l = Some i -> position x (l ++ [y]) = Some i.
Proof.
  revert i. induction l as [|c l IH]; simpl; intros i; [discriminate|].
  destruct (String.eqb c x); [easy|].
  destruct (position x l) as [j|]; simpl; [|discriminate].
  intros H. now rewrite (IH j eq_refl).
Qed.

Lemma nth_replace_nth {A} i (x d : A) l :
  i < length l -> nth i (replace_nth i x l) d = x.
Proof.
  revert i. induction l as [|a l IH]; simpl; intros i Hi; [lia|].
  destruct i; simpl; [reflexivity|]. apply IH. lia.
Qed.

Lemma nth_replace_nth_other {A} i j (x d : A) l :
  i <> j -> nth j (replace_nth i x l) d = nth j l d.
Proof.
  revert i j. induction l as [|a l IH]; intros i j N.
  - now destruct i.
  - destruct i, j; simpl; try reflexivity; [congruence|]. apply IH. congruence.
Qed.

Lemma nth_error_set_cells pos rs vs n w v :
  nth_error rs n = Some w -> nth_error vs n = Some v ->
  nth_error (set_cells pos rs vs) n = Some (set_cell pos w v).
Proof.
  revert vs n. induction rs as [|r rs IH]; intros vs n; [now destruct n|].
  destruct vs as [|u vs]; [now destruct n|].
  destruct n; simpl.
  - intros H1 H2; inversion H1; inversion H2; reflexivity.
  - apply IH.
Qed.

Lemma length_set_cells pos rs vs : length (set_cells pos rs vs) = length rs.
Proof.
  revert vs. induction rs as [|r rs IH]; intros [|v vs]; simpl; auto.
Qed.

Lemma rows_setitem df name vs :
  rows (setitem df name vs) = set_cells (position name (columns df)) (rows df) vs.
Proof. reflexivity. Qed.

(** The cell written by [df[name] = values] is read back under [name]. *)
Lemma cell_of_setitem df name vs w v :
  length (snd w) = length (columns df) ->
  cell_of (setitem df name vs) name (set_cell (position name (columns df)) w v)
  = Some v.
Proof.
  intros Hw. unfold cell_of, setitem. cbn [columns].
  destruct (position name (columns df)) as [i|] eqn:P.
  - rewrite P. cbn. unfold cell_at. cbn [snd].
    rewrite nth_replace_nth; [reflexivity|].
    rewrite Hw. now apply position_lt with (x := name).
  - rewrite (position_app_new _ _ P). cbn. unfold cell_at. cbn [snd].
    rewrite <- Hw, nth_middle. reflexivity.
Qed.

(** A new column leaves every row's cells in place and adds one on the right. *)
Lemma set_cells_new rs vs :
  length vs = length rs ->
  Forall2 (fun w w' : row =>
             fst w' = fst w /\ exists v, In v vs /\ snd w' = snd w ++ [v])
          rs (set_cells None rs vs).
Proof.
  revert vs. induction rs as [|r rs IH]; intros [|v vs]; simpl; intros H;
    try discriminate; constructor.
  - split; [reflexivity | exists v; split; [now left | reflexivity]].
  - eapply Forall2_impl; [|apply IH; lia].
    intros w w' (E & u & I & S). split; [exact E|]. exists u. split; [now right | exact S].
Qed.

End SetItem.

(** ** Runs *)

Section Runs.

Context {fitted : Type}.
Implicit Types (k : kernel fitted) (cells : list (nat * M fitted unit)).

Lemma run_cells_app a b k :
  run_cells (a ++ b) k =
  match run_cells a k with
  | mkRun ex None k' =>
      match run_cells b k' with
      | mkRun ex' r k'' => mkRun (ex ++ ex') r k''
      end
  | r => r
  end.
Proof.
  revert k. induction a as [|[i c] a IH]; intros k; simpl.
  - now destruct (run_cells b k).
  - destruct (c k) as [[e|u] k']; [reflexivity|].
    rewrite IH. destruct (run_cells a k') as [ex [x|] k'']; [reflexivity|].
    now destruct (run_cells b k'').
Qed.

(** The cells that were started are the first cells of the list. *)
Lemma executed_prefix cells k :
  exists rest, map fst cells = executed (run_cells cells k) ++ rest.
Proof.
  revert k. induction cells as [|[i c] cells IH]; intros k; simpl.
  - now exists [].
  - destruct (c k) as [[e|u] k'].
    + now exists (map fst cells).
    + destruct (IH k') as [rest E].
      destruct (run_cells cells k') as [ex r k'']. simpl in *.
      exists rest. now rewrite E.
Qed.

(** A run that raised nothing started every cell. *)
Lemma executed_complete cells k :
  raised (run_cells cells k) = None ->
  executed (run_cells cells k) = map fst cells.
Proof.
  revert k. induction cells as [|[i c] cells IH]; intros k; simpl.
  - reflexivity.
  - destruct (c k) as [[e|u] k']; [discriminate|].
    specialize (IH k'). destruct (run_cells cells k') as [ex r k'']. simpl in *.
    intros H. now rewrite IH.
Qed.

(** A property every cell keeps, whatever its outcome, holds of every
    kernel of the run. *)
Lemma states_invariant (P : kernel fitted -> Prop) cells k :
  Forall (fun c => forall k0, P k0 -> P (snd (snd c k0))) cells ->
  P k -> Forall P (states cells k).
Proof.
  intros F. revert k. induction F as [|[i c] cells Hc F IH]; intros k Pk; simpl.
  - constructor.
  - specialize (Hc k Pk). simpl in Hc.
    destruct (c k) as [[e|u] k']; simpl in Hc.
    + now repeat constructor.
    + constructor; [exact Hc | now apply IH].
Qed.

Lemma states_app a b k :
  states (a ++ b) k =
  states a k ++
  match run_cells a k with
  | mkRun _ None k' => states b k'
  | _ => []
  end.
Proof.
  revert k. induction a as [|[i c] a IH]; intros k; simpl.
  - reflexivity.
  - destruct (c k) as [[e|u] k']; [reflexivity|].
    rewrite IH. simpl. destruct (run_cells a k') as [ex [x|] k'']; reflexivity.
Qed.

End Runs.

(** ** Two runs side by side *)

Section Relations.

Context {fitted : Type}.
Variable R : kernel fitted -> kernel fitted -> Prop.

(** Started in related kernels, the two computations end alike and in
    related kernels. *)
Definition respects {A} (c1 c2 : M fitted A) : Prop :=
  forall k1 k2, R k1 k2 ->
    fst (c1 k1) = fst (c2 k2) /\ R (snd (c1 k1)) (snd (c2 k2)).

Lemma respects_ret {A} (a : A) : respects (ret a) (ret a).
Proof. intros k1 k2 H. now split. Qed.

Lemma respects_raise {A} e : respects (@raise fitted A e) (raise e).
Proof. intros k1 k2 H. now split. Qed.

Lemma respects_bind {A B} (c1 c2 : M fitted A) (f1 f2 : A -> M fitted B) :
  respects c1 c2 -> (forall a, respects (f1 a) (f2 a)) ->
  respects (bind c1 f1) (bind c2 f2).
Proof.
  intros Hc Hf k1 k2 H. unfold bind.
  destruct (Hc k1 k2 H) as [E H'].
  destruct (c1 k1) as [[e1|a1] k1'], (c2 k2) as [[e2|a2] k2']; simpl in *;
    try discriminate.
  - inversion E; subst. now split.
  - inversion E; subst. now apply Hf.
Qed.

Lemma respects_for_each {A} (l : list A) (b1 b2 : A -> M fitted unit) :
  (forall a, respects (b1 a) (b2 a)) ->
  respects (for_each l b1) (for_each l b2).
Proof.
  intros Hb. induction l as [|a l IH]; simpl.
  - apply respects_ret.
  - apply respects_bind; [apply Hb | intros _; exact IH].
Qed.

Lemma run_cells_respects cells1 cells2 :
  Forall2 (fun a b => fst a = fst b /\ respects (snd a) (snd b)) cells1 cells2 ->
  forall k1 k2, R k1 k2 ->
    executed (run_cells cells1 k1) = executed (run_cells cells2 k2) /\
    raised (run_cells cells1 k1) = raised (run_cells cells2 k2) /\
    R (final (run_cells cells1 k1)) (final (run_cells cells2 k2)).
Proof.
  induction 1 as [|[i c1] [j c2] l1 l2 [E Hc] F IH]; intros k1 k2 H; simpl in *.
  - now repeat split.
  - subst j. destruct (Hc k1 k2 H) as [Eo H'].
    destruct (c1 k1) as [[e1|u1] k1'], (c2 k2) as [[e2|u2] k2']; simpl in *;
      try discriminate.
    + inversion Eo; subst. now repeat split.
    + destruct (IH k1' k2' H') as (Ee & Er & Hf).
      destruct (run_cells l1 k1') as [ex1 r1 f1], (run_cells l2 k2') as [ex2 r2 f2].
      simpl in *. subst. now repeat split.
Qed.

End Relations.

Ltac open_cells :=
  unfold cell_4, cell_6, cell_7, cell_8, cell_10, cell_11, cell_13, cell_15,
    cell_16, cell_17, cell_18, cell_19, cell_21, cell_22, cell_23, cell_25,
    cell_26, cell_28, cell_30, cell_31, cell_32, cell_33, cell_34, cell_35,
    cell_36, cell_37, cell_38, cell_39, cell_40, loop_body, corr_Mcz, unpack,
    do_fit, do_cross_val_score, do_score, do_metric, do_predict, frame,
    series, array, names, est, search, column.

(** One step of a proof that a computation built from the kernel's
    primitives respects a relation; [prim] settles the primitives. *)
Ltac respects_step prim :=
  first
    [ apply respects_ret
    | apply respects_raise
    | apply respects_for_each; intros ?
    | apply respects_bind; [| intros ?]
    | prim
    | match goal with
      | |- respects _ (match ?v with _ => _ end) _ => destruct v
      end ].

Section Oblivious.

Context {fitted : Type}.
Variable L : Library fitted.

Lemma rng_name x : respects same_but_rng (@name fitted x) (name x).
Proof.
  intros k1 k2 (Hn & Hl & Ho). unfold name. rewrite Hn.
  destruct (lookup x (ns k2)); simpl; repeat split; assumption.
Qed.

Lemma rng_store x v : respects same_but_rng (@store fitted x v) (store x v).
Proof.
  intros k1 k2 (Hn & Hl & Ho). unfold store, same_but_rng; simpl.
  now rewrite Hn, Hl, Ho.
Qed.

Lemma rng_display v : respects same_but_rng (@display fitted v) (display v).
Proof.
  intros k1 k2 (Hn & Hl & Ho). unfold display, same_but_rng; simpl.
  now rewrite Hn, Hl, Ho.
Qed.

Lemma rng_call {A} ev (r : exn + A) :
  respects same_but_rng (@call fitted A ev r) (call ev r).
Proof.
  intros k1 k2 (Hn & Hl & Ho). unfold call, same_but_rng; simpl.
  now rewrite Hn, Hl, Ho.
Qed.

Lemma preds_name x :
  x <> "preds" -> respects same_but_preds (@name fitted x) (name x).
Proof.
  intros N k1 k2 (Hl & Hz & Hn). unfold name. rewrite (Hn x N).
  destruct (lookup x (ns k2)); simpl; repeat split; assumption.
Qed.

Lemma preds_store x v : respects same_but_preds (@store fitted x v) (store x v).
Proof.
  intros k1 k2 (Hl & Hz & Hn). unfold store, same_but_preds; simpl.
  repeat split; try assumption.
  intros y N. rewrite !lookup_assign. destruct (String.eqb x y); auto.
Qed.

Lemma preds_display v1 v2 :
  respects same_but_preds (@display fitted v1) (display v2).
Proof.
  intros k1 k2 (Hl & Hz & Hn). unfold display, same_but_preds; simpl.
  repeat split; assumption.
Qed.

Lemma preds_call {A} ev (r : exn + A) :
  respects same_but_preds (@call fitted A ev r) (call ev r).
Proof.
  intros k1 k2 (Hl & Hz & Hn). unfold call, same_but_preds; simpl.
  rewrite Hl. repeat split; assumption.
Qed.

Lemma preds_global_rng : respects same_but_preds (@global_rng fitted) global_rng.
Proof.
  intros k1 k2 (Hl & Hz & Hn). unfold global_rng; simpl.
  rewrite Hz. repeat split; assumption.
Qed.

Lemma keeps_name v x : respects (keeps v) (@name fitted x) (name x).
Proof.
  intros k1 k2 (<- & H). unfold name.
  destruct (lookup x (ns k1)); simpl; repeat split; assumption.
Qed.

Lemma keeps_store v x w :
  x <> "galaxies" -> respects (keeps v) (@store fitted x w) (store x w).
Proof.
  intros N k1 k2 (<- & H). unfold store, keeps; simpl.
  repeat split. now rewrite lookup_assign_neq.
Qed.

Lemma keeps_display v w : respects (keeps v) (@display fitted w) (display w).
Proof. intros k1 k2 (<- & H). unfold display, keeps; simpl. now repeat split. Qed.

Lemma keeps_call {A} v ev (r : exn + A) :
  respects (keeps v) (@call fitted A ev r) (call ev r).
Proof. intros k1 k2 (<- & H). unfold call, keeps; simpl. now repeat split. Qed.

Lemma keeps_global_rng v : respects (keeps v) (@global_rng fitted) global_rng.
Proof. intros k1 k2 (<- & H). unfold global_rng, keeps; simpl. now repeat split. Qed.

End Oblivious.

Ltac rng_prim :=
  first [ apply rng_name | apply rng_store | apply rng_display | apply rng_call ].

Ltac preds_prim :=
  first [ apply preds_name; discriminate | apply preds_store | apply preds_display
        | apply preds_call | apply preds_global_rng ].

Ltac keeps_prim :=
  first [ apply keeps_name | apply keeps_store; discriminate | apply keeps_display
        | apply keeps_call | apply keeps_global_rng ].

Ltac oblivious prim := open_cells; repeat respects_step prim.

Section ObliviousCells.

Context {fitted : Type}.
Variable L : Library fitted.

(** Down to cell 30 no cell reads the global generator. *)
Lemma upto_30_ignores_rng :
  Forall (fun c : nat * M fitted unit => respects same_but_rng (snd c) (snd c))
         (upto L 30).
Proof.
  unfold upto, notebook, load_cells, correlation_cells, regression_cells,
    classification_cells.
  cbn [filter fst Nat.leb app].
  repeat (constructor; [cbn [snd]; oblivious rng_prim |]).
  constructor.
Qed.

(** [galaxies] is assigned by the cells 4, 8 and 30 only. *)
Lemma before_label_keeps v :
  Forall (fun c : nat * M fitted unit => respects (keeps v) (snd c) (snd c))
         (before_label L).
Proof.
  unfold before_label, correlation_cells, regression_cells. cbn [app].
  repeat (constructor; [cbn [snd]; oblivious keeps_prim |]).
  constructor.
Qed.

Lemma after_label_keeps v :
  Forall (fun c : nat * M fitted unit => respects (keeps v) (snd c) (snd c))
         (after_label L).
Proof.
  unfold after_label.
  repeat (constructor; [cbn [snd]; oblivious keeps_prim |]).
  constructor.
Qed.

Lemma notebook_split :
  notebook L =
  load_cells L ++ before_label L ++ [(30, cell_30)] ++ after_label L.
Proof. reflexivity. Qed.

End ObliviousCells.

Lemma complete_has_missing w : complete w <-> has_missing w = false.
Proof.
  unfold complete, has_missing. split.
  - intros H. destruct (existsb isna (snd w)) eqn:E; [|reflexivity].
    apply existsb_exists in E. destruct E as (c & I & N).
    rewrite (H c I) in N. discriminate.
  - intros H c I. destruct (isna c) eqn:N; [|reflexivity].
    assert (existsb isna (snd w) = true) as E
      by (apply existsb_exists; now exists c).
    congruence.
Qed.

(** * The properties *)

Section Properties.

Context {fitted : Type}.
Variable L : Library fitted.

(** C2. The cleaning step removes exactly the rows of the loaded table that
    contain a missing value: after cell 8 [galaxies] is bound to a frame with
    the loaded columns whose rows are the rows without missing values,
    unchanged and in their order (a subsequence that contains every
    subsequence of complete rows); nothing else is bound, and the only
    library call made on the data is the read. *)
Theorem cleaning_drops_the_rows_with_missing_values (e : Z) (df : DataFrame) :
  read_csv L "COMBO17.csv" = inr df ->
  let r := run_cells (upto L 8) (fresh e) in
  raised r = None /\
  log (final r) = [ReadCsv "COMBO17.csv"] /\
  exists g,
    ns (final r) = [("galaxies", VFrame g)] /\
    columns g = columns df /\
    Subseq (rows g) (rows df) /\
    (forall w, In w (rows g) <-> In w (rows df) /\ complete w) /\
    (forall l, Subseq l (rows df) -> Forall complete l -> Subseq l (rows g)).
Proof.
  intros H. cbn. rewrite H. cbn.
  split; [reflexivity|]. split; [reflexivity|].
  exists (dropna df). split; [reflexivity|].
  split; [apply dropna_columns|]. split; [apply dropna_Subseq|]. split.
  - intros w. rewrite dropna_In, complete_has_missing. tauto.
  - intros l S F. apply dropna_greatest; [exact S|].
    eapply Forall_impl; [|exact F]. intros w. apply complete_has_missing.
Qed.

(** C4. The correlation analysis selects exactly the columns of the cleaned
    table whose absolute correlation with [Mcz] is strictly above 0.5, in
    the order of the columns; a column whose absolute correlation is at or
    below 0.5 is not selected. *)
Theorem preds_are_the_columns_correlated_above_half (e : Z) :
  let r := run_cells (upto L 10) (fresh e) in
  raised r = None ->
  exists df p,
    read_csv L "COMBO17.csv" = inr df /\
    lookup "galaxies" (ns (final r)) = Some (VFrame (dropna df)) /\
    lookup "preds" (ns (final r)) = Some (VNames p) /\
    Subseq p (columns (dropna df)) /\
    (forall c, In c p <->
               In c (columns (dropna df)) /\
               (0.5 <? abs (corr L (dropna df) "Mcz" c))%float = true) /\
    (forall c, (abs (corr L (dropna df) "Mcz" c) <=? 0.5)%float = true ->
               ~ In c p).
Proof.
  cbv zeta. symex. intros _.
  exists d, (selected L (dropna d)).
  split; [reflexivity|]. split; [reflexivity|]. split; [reflexivity|].
  split; [apply Subseq_filter|]. split.
  - intros c. unfold selected. rewrite filter_In. reflexivity.
  - intros c B I. unfold selected in I. apply filter_In in I.
    destruct I as [_ A]. rewrite (not_above_half _ B) in A. discriminate.
Qed.

(** C5. When reading the file raises, the run ends in that exception at
    cell 4: no later cell is started, no name is bound, nothing is
    displayed, and the read is the only call that was made.  No cell of
    any notebook catches: the run ends at the first cell that raises. *)
Theorem load_failure_ends_the_run (e : Z) (x : exn) :
  read_csv L "COMBO17.csv" = inl x ->
  run L e = mkRun [4] (Some x) (mkKernel [] [ReadCsv "COMBO17.csv"] [] e) /\
  (forall cells i c k y k',
      c k = (inl y, k') ->
      run_cells ((i, c) :: cells) k = @mkRun fitted [i] (Some y) k').
Proof.
  intros H. split.
  - unfold run. cbn. rewrite H. reflexivity.
  - intros cells i c k y k' Hc. simpl. now rewrite Hc.
Qed.

(** C3. After cell 30 every row of the cleaned table, in its place and under
    its index label, carries under [bool] the label [True] exactly when its
    [Mcz] is strictly above 0.5: a value at or below 0.5, and 0.5 itself, is
    labelled [False]. *)
Theorem label_is_Mcz_above_half (e : Z) (df : DataFrame) :
  read_csv L "COMBO17.csv" = inr df ->
  rectangular df ->
  let r := run_cells (upto L 30) (fresh e) in
  raised r = None ->
  exists g',
    lookup "galaxies" (ns (final r)) = Some (VFrame g') /\
    length (rows g') = length (rows (dropna df)) /\
    forall n w, nth_error (rows (dropna df)) n = Some w ->
      exists w' c b,
        nth_error (rows g') n = Some w' /\
        fst w' = fst w /\
        cell_of (dropna df) "Mcz" w = Some c /\
        cell_of g' "bool" w' = Some (Boolean b) /\
        b = gt_half c /\
        forall m, c = Num m ->
          (b = true <-> (0.5 <? m)%float = true) /\
          ((m <=? 0.5)%float = true -> b = false) /\
          (m = 0.5%float -> b = false).
Proof.
  intros Hread Hrect. cbv zeta. cbn. rewrite Hread. symex. intros _.
  repeat match goal with
         | H : Some _ = Some _ |- _ => inversion H; subst; clear H
         end.
  match goal with H : getitem (dropna df) "Mcz" = Some ?s |- _ =>
    rename H into Hmcz; rename s into mcz end.
  unfold getitem in Hmcz.
  destruct (position "Mcz" (columns (dropna df))) as [col|] eqn:P;
    [|discriminate]. cbv [option_map] in Hmcz.
  injection Hmcz as <-.
  eexists. split; [reflexivity|]. split.
  - rewrite rows_setitem. apply length_set_cells.
  - intros idx rw Hw.
    exists (set_cell (position "bool" (columns (dropna df))) rw
              (Boolean (gt_half (cell_at col rw)))),
           (cell_at col rw), (gt_half (cell_at col rw)).
    split.
    { rewrite rows_setitem. apply nth_error_set_cells; [exact Hw|].
      rewrite map_map.
      exact (map_nth_error (fun x => Boolean (gt_half (cell_at col x))) idx
               (rows (dropna df)) Hw). }
    split; [now destruct (position "bool" (columns (dropna df)))|].
    split; [unfold cell_of; now rewrite P|].
    split.
    { apply cell_of_setitem.
      apply nth_error_In in Hw. apply dropna_In in Hw. destruct Hw as [Hw _].
      unfold rectangular in Hrect. rewrite Forall_forall in Hrect.
      rewrite dropna_columns. now apply Hrect. }
    split; [reflexivity|].
    intros mcz_value ->. cbn [gt_half]. split; [reflexivity|]. split.
    + apply not_above_half.
    + intros ->. reflexivity.
Qed.



(** C1 (what the code does). In a run that completes, the three regressors
    and the first classifier are fitted on the training partition of the
    split that precedes them and evaluated on its test partition, but the
    gradient-boosting classifier is fitted on the test partition of the
    second split, the very rows it is then scored on. *)
Theorem gbc_is_fitted_on_the_test_partition (e : Z) :
  raised (run L e) = None ->
  exists X y lab s1 s2 pa pa' pg pg' pg'',
    train_test_split L (RandomState 42) X y = inr s1 /\
    train_test_split L (GlobalRng e) X lab = inr s2 /\
    fits (log (final (run L e))) =
      [Fit "abr" (X_train s1) (Y_train s1);
       GridFit "gs" (X_train s1) (Y_train s1);
       Fit "grad_boost" (X_train s1) (Y_train s1);
       Fit "abc" (X_train s2) (Y_train s2);
       Fit "gbc" (X_test s2) (Y_test s2)] /\
    evaluations (log (final (run L e))) =
      [CrossValScore "abr" (X_test s1) (Y_test s1) 5;
       CrossValScore "grad_boost" (X_test s1) (Y_test s1) 5;
       Score "abc" (X_test s2) (Y_test s2);
       Predict "abc" (X_test s2); Metric "precision_score" (Y_test s2) pa;
       Predict "abc" (X_test s2); Metric "recall_score" (Y_test s2) pa';
       Score "gbc" (X_test s2) (Y_test s2);
       Predict "gbc" (X_test s2); Metric "precision_score" (Y_test s2) pg;
       Predict "gbc" (X_test s2); Metric "recall_score" (Y_test s2) pg';
       Predict "gbc" (X_test s2); Metric "confusion_matrix" (Y_test s2) pg''].
Proof.
  unfold run. symex. intros _.
  repeat match goal with
         | H : Some _ = Some _ |- _ => inversion H; subst; clear H
         | H : inr _ = inr _ |- _ => inversion H; subst; clear H
         end.
  match goal with
  | H1 : train_test_split L (RandomState 42) ?X ?y = inr ?s1,
    H2 : train_test_split L (GlobalRng e) ?X ?lab = inr ?s2 |- _ =>
      exists X, y, lab, s1, s2
  end.
  do 5 eexists. repeat split; try eassumption; reflexivity.
Qed.

Lemma keeps_run v (cells : list (nat * M fitted unit)) k :
  Forall (fun c => respects (keeps v) (snd c) (snd c)) cells ->
  lookup "galaxies" (ns k) = Some v ->
  Forall (fun k' => lookup "galaxies" (ns k') = Some v) (states cells k) /\
  lookup "galaxies" (ns (final (run_cells cells k))) = Some v.
Proof.
  intros F P. split.
  - apply states_invariant; [|exact P].
    eapply Forall_impl; [|exact F]. intros c Hc k0 P0.
    now destruct (Hc k0 k0 (conj eq_refl P0)) as (_ & _ & Q).
  - assert (Forall2 (fun a b : nat * M fitted unit =>
                       fst a = fst b /\ respects (keeps v) (snd a) (snd b))
                    cells cells) as F2
      by (induction F; constructor; auto).
    now destruct (run_cells_respects _ _ _ F2 k k (conj eq_refl P))
      as (_ & _ & _ & Q).
Qed.

Lemma cell_30_labels (k : kernel fitted) g :
  lookup "galaxies" (ns k) = Some (VFrame g) ->
  lookup "galaxies" (ns (snd (cell_30 k))) = Some (VFrame g) \/
  exists mcz,
    getitem g "Mcz" = Some mcz /\
    lookup "galaxies" (ns (snd (cell_30 k))) =
      Some (VFrame (setitem g "bool" (map (fun c => Boolean (gt_half c)) mcz))).
Proof.
  intros H. unfold cell_30, frame, name, column, bind, store, ret, raise.
  rewrite H. destruct (getitem g "Mcz") as [mcz|] eqn:E.
  - rewrite H. right. exists mcz. split; [reflexivity|]. cbn [snd ns].
    apply lookup_assign_eq.
  - left. exact H.
Qed.

Lemma labelled_frame g mcz :
  getitem g "Mcz" = Some mcz ->
  ~ In "bool" (columns g) ->
  columns (setitem g "bool" (map (fun c => Boolean (gt_half c)) mcz))
    = columns g ++ ["bool"] /\
  Forall2 (fun w w' : row =>
             fst w' = fst w /\ exists b, snd w' = snd w ++ [Boolean b])
          (rows g)
          (rows (setitem g "bool" (map (fun c => Boolean (gt_half c)) mcz))).
Proof.
  intros Hm Hn. apply position_None in Hn.
  unfold setitem. rewrite Hn. cbn [columns rows]. split; [reflexivity|].
  unfold getitem in Hm. destruct (position "Mcz" (columns g)); [|discriminate].
  cbv [option_map] in Hm. injection Hm as <-.
  eapply Forall2_impl; [|apply set_cells_new; now rewrite !length_map].
  intros w w' (E & v & I & S). split; [exact E|].
  apply in_map_iff in I. destruct I as (c & <- & _). now exists (gt_half c).
Qed.

(** C9 (amended). When the loaded table has no column named [bool], then
    from the row-drop on [galaxies] is the cleaned table or, once cell 30
    has run, the cleaned table with the label column added on the right:
    the columns it had keep their names and order, and every row keeps its
    index label and its cells. *)
Theorem galaxies_only_gains_the_label_column (e : Z) :
  (forall df, read_csv L "COMBO17.csv" = inr df -> ~ In "bool" (columns df)) ->
  gains_only_the_label L e.
Proof.
  intros Hno df Hread k Hk.
  specialize (Hno df Hread).
  rewrite notebook_split, states_app in Hk.
  remember (before_label L ++ [(30, cell_30)] ++ after_label L) as rest eqn:Hrest.
  cbn in Hk. rewrite Hread in Hk. cbn in Hk.
  destruct Hk as [<-|Hk]; [now left|].
  subst rest. rewrite states_app in Hk. apply in_app_or in Hk.
  destruct (keeps_run (VFrame (dropna df)) (before_label L)
              (mkKernel [("galaxies", VFrame (dropna df))]
                        [ReadCsv "COMBO17.csv"]
                        [VFrame (head df); VNames (columns df); VNat (isnull_sum df)]
                        e)
              (before_label_keeps L _) eq_refl) as [Hstates Hfinal].
  destruct Hk as [Hk|Hk].
  - left. rewrite Forall_forall in Hstates. now apply Hstates.
  - destruct (run_cells (before_label L) _) as [ex [x|] kA]; [contradiction|].
    cbn [final] in Hfinal. cbn [app states] in Hk.
    pose proof (cell_30_labels kA _ Hfinal) as H30.
    assert (exists v, lookup "galaxies" (ns (snd (cell_30 kA))) = Some v /\
                      forall k', lookup "galaxies" (ns k') = Some v ->
                                 cleaned_or_labelled df k') as (v & Hv & Hgood).
    { destruct H30 as [H30|(mcz & Hm & H30)].
      - eexists. split; [exact H30|]. intros k' Hk'. now left.
      - eexists. split; [exact H30|]. intros k' Hk'. right.
        eexists. split; [exact Hk'|].
        apply labelled_frame; [exact Hm | now rewrite dropna_columns]. }
    destruct (cell_30 kA) as [[x|u] k30]; cbn [snd] in Hv.
    + destruct Hk as [<-|[]]. now apply Hgood.
    + destruct Hk as [<-|Hk]; [now apply Hgood|].
      destruct (keeps_run v (after_label L) k30 (after_label_keeps L _) Hv)
        as [Hafter _].
      rewrite Forall_forall in Hafter. apply Hgood. now apply Hafter.
Qed.

Lemma positions_incl names cols :
  (forall n, In n names -> In n cols) -> exists l, positions names cols = Some l.
Proof.
  induction names as [|n names IH]; intros H; simpl.
  - now exists [].
  - destruct (position n cols) as [i|] eqn:P.
    + destruct IH as [l El]; [intros m I; apply H; now right|].
      rewrite El. now eexists.
    + apply position_None in P. exfalso. apply P, H. now left.
Qed.

Lemma getitems_selected (L' : Library fitted) g :
  exists sub, getitems g (selected L' g) = Some sub.
Proof.
  unfold getitems.
  destruct (positions_incl (selected L' g) (columns g)) as [l E].
  - intros n I. unfold selected in I. now apply filter_In in I.
  - rewrite E. now eexists.
Qed.

Lemma notebook_head_tail : notebook L = head_cells L ++ tail_cells L.
Proof. reflexivity. Qed.

(** Whatever the correlation, the cells down to the correlation analysis
    end alike, in kernels that differ in [preds] and in the displayed
    matrix at most. *)
Lemma head_related c' e :
  let r := run_cells (head_cells L) (fresh e) in
  let r' := run_cells (head_cells (with_corr c' L)) (fresh e) in
  executed r = executed r' /\ raised r = raised r' /\
  same_but_preds (final r) (final r').
Proof.
  cbv zeta. unfold head_cells, load_cells. cbn.
  destruct (read_csv L "COMBO17.csv") as [x|df]; cbn.
  - repeat split; reflexivity.
  - erewrite !cell_10_run by reflexivity.
    destruct (position "Mcz" (columns (dropna df))); cbn.
    + destruct (getitems_selected L (dropna df)) as [sub E],
               (getitems_selected (with_corr c' L) (dropna df)) as [sub' E'].
      rewrite E, E'. cbn.
      split; [reflexivity|]. split; [reflexivity|].
      split; [reflexivity|]. split; [reflexivity|].
      intros y N. cbn [ns lookup].
      destruct (String.eqb "galaxies" y); [reflexivity|].
      destruct (String.eqb_spec "preds" y); [congruence | reflexivity].
    + repeat split; reflexivity.
Qed.

(** The cells after the correlation analysis read neither [preds] nor the
    correlation. *)
Lemma tail_related c' :
  Forall2 (fun a b : nat * M fitted unit =>
             fst a = fst b /\ respects same_but_preds (snd a) (snd b))
          (tail_cells L) (tail_cells (with_corr c' L)).
Proof.
  unfold tail_cells, regression_cells, classification_cells. cbn [app].
  repeat (constructor;
          [split; [reflexivity | cbn [snd]; oblivious preds_prim] |]).
  constructor.
Qed.

(** C10 (amended). [preds] contains [Mcz] exactly when the absolute
    correlation the library reports of [Mcz] with itself is strictly above
    0.5.  Whatever the correlation analysis selects, it reaches no later
    step: with any other correlation in the library's place the run starts
    the same cells, ends alike, makes the same library calls on the same
    arguments and binds every name but [preds] to the same value.  In a
    run that completes, both splits are of the one-column matrix of
    [S280MAG], and every model is fitted on a part of such a split. *)
Theorem preds_reach_no_model (e : Z) :
  (raised (run_cells (upto L 10) (fresh e)) = None ->
   exists df p,
     read_csv L "COMBO17.csv" = inr df /\
     lookup "preds" (ns (final (run_cells (upto L 10) (fresh e))))
       = Some (VNames p) /\
     (In "Mcz" p <->
      (0.5 <? abs (corr L (dropna df) "Mcz" "Mcz"))%float = true)) /\
  (forall c',
     executed (run (with_corr c' L) e) = executed (run L e) /\
     raised (run (with_corr c' L) e) = raised (run L e) /\
     log (final (run (with_corr c' L) e)) = log (final (run L e)) /\
     forall x, x <> "preds" ->
       lookup x (ns (final (run (with_corr c' L) e)))
       = lookup x (ns (final (run L e)))) /\
  (raised (run L e) = None ->
   exists df x y lab s1 s2,
     read_csv L "COMBO17.csv" = inr df /\
     getitem (dropna df) "S280MAG" = Some x /\
     train_test_split L (RandomState 42) (reshape_column x) y = inr s1 /\
     train_test_split L (GlobalRng e) (reshape_column x) lab = inr s2 /\
     fits (log (final (run L e))) =
       [Fit "abr" (X_train s1) (Y_train s1);
        GridFit "gs" (X_train s1) (Y_train s1);
        Fit "grad_boost" (X_train s1) (Y_train s1);
        Fit "abc" (X_train s2) (Y_train s2);
        Fit "gbc" (X_test s2) (Y_test s2)]).
Proof.
  split; [|split].
  - symex. intros _. eexists. exists (selected L (dropna d)).
    split; [reflexivity|]. split; [reflexivity|].
    unfold selected. rewrite filter_In. split; [tauto|].
    intros A. split; [|exact A]. eapply position_Some_In. eassumption.
  - intros c'. unfold run.
    change (notebook (with_corr c' L))
      with (head_cells (with_corr c' L) ++ tail_cells (with_corr c' L)).
    rewrite notebook_head_tail, !run_cells_app.
    destruct (head_related c' e) as (Ee & Er & Hf).
    destruct (run_cells (head_cells L) (fresh e)) as [ex r k],
             (run_cells (head_cells (with_corr c' L)) (fresh e)) as [ex' r' k'].
    cbn [executed raised final] in *. subst ex' r'.
    destruct r as [x|].
    + cbn [executed raised final]. destruct Hf as (Hl & _ & Hn).
      repeat split; auto. intros y N. symmetry. now apply Hn.
    + destruct (run_cells_respects same_but_preds _ _ (tail_related c') k k' Hf)
        as (Ee & Er & Hl & _ & Hn).
      destruct (run_cells (tail_cells L) k) as [ex1 r1 k1],
               (run_cells (tail_cells (with_corr c' L)) k') as [ex2 r2 k2].
      cbn [executed raised final] in *. subst ex2 r2.
      repeat split; auto. intros y N. symmetry. now apply Hn.
  - unfold run. symex. intros _.
    repeat match goal with
           | H : Some _ = Some _ |- _ => inversion H; subst; clear H
           | H : inr _ = inr _ |- _ => inversion H; subst; clear H
           end.
    do 6 eexists. repeat split; try eassumption; reflexivity.
Qed.

End Properties.

(** C8. In a run that completes, both classifiers are constructed with
    [random_state=42] and the first split is seeded with 42, but the second
    split is drawn from the global generator in the state the process
    started with: the partition it returns is what the four names are bound
    to and what both classifiers are scored on.  So the displayed
    classification scores follow that state and not the file alone: over
    the reference library and the sample file, two states of the generator
    give the same first partition but different second partitions and
    different scores. *)
Theorem classification_follows_the_global_generator :
  (forall fitted (L : Library fitted) (e : Z),
     raised (run L e) = None ->
     exists X y lab s1 s a p r a' p' r' m abc gbc,
       lookup "abc" (ns (final (run L e))) = Some (VEstimator abc) /\
       random_state abc = Some 42%Z /\
       lookup "gbc" (ns (final (run L e))) = Some (VEstimator gbc) /\
       random_state gbc = Some 42%Z /\
       In (TrainTestSplit (RandomState 42) X y) (log (final (run L e))) /\
       train_test_split L (RandomState 42) X y = inr s1 /\
       In (TrainTestSplit (GlobalRng e) X lab) (log (final (run L e))) /\
       train_test_split L (GlobalRng e) X lab = inr s /\
       lookup "x_train2" (ns (final (run L e))) = Some (VMatrix (X_train s)) /\
       lookup "x_test2" (ns (final (run L e))) = Some (VMatrix (X_test s)) /\
       lookup "y_train2" (ns (final (run L e))) = Some (VSeries (Y_train s)) /\
       lookup "y_test2" (ns (final (run L e))) = Some (VSeries (Y_test s)) /\
       In (Score "abc" (X_test s) (Y_test s)) (log (final (run L e))) /\
       In (Score "gbc" (X_test s) (Y_test s)) (log (final (run L e))) /\
       scores (out (final (run L e))) =
         [VFloat a; VFloat p; VFloat r; VFloat a'; VFloat p'; VFloat r';
          VCounts m]) /\
  (exists e1 e2 : Z,
     raised (run combo e1) = None /\
     raised (run combo e2) = None /\
     lookup "y_test" (ns (final (run combo e1)))
       = lookup "y_test" (ns (final (run combo e2))) /\
     lookup "y_test2" (ns (final (run combo e1)))
       <> lookup "y_test2" (ns (final (run combo e2))) /\
     scores (out (final (run combo e1))) <> scores (out (final (run combo e2)))).
Proof.
  split.
  - intros fitted L e. unfold run. symex. intros _.
    repeat match goal with
           | H : Some _ = Some _ |- _ => inversion H; subst; clear H
           | H : inr _ = inr _ |- _ => inversion H; subst; clear H
           end.
    match goal with
    | H1 : train_test_split L (RandomState 42) ?X ?y = inr ?s1,
      H2 : train_test_split L (GlobalRng e) ?X ?lab = inr ?s2 |- _ =>
        exists X, y, lab, s1, s2
    end.
    do 9 eexists.
    do 4 (split; [reflexivity|]).
    split; [right; left; reflexivity|]. split; [eassumption|].
    split; [do 7 right; left; reflexivity|]. split; [eassumption|].
    do 4 (split; [reflexivity|]).
    split; [do 9 right; left; reflexivity|].
    split; [do 15 right; left; reflexivity|].
    reflexivity.
  - exists 0%Z, 1%Z.
    split; [vm_compute; reflexivity|]. split; [vm_compute; reflexivity|].
    split; [vm_compute; reflexivity|].
    split; intros H; vm_compute in H; discriminate H.
Qed.

(** * The properties on the reference library *)

Lemma cleaning_drops_the_rows_with_missing_values_witness :
  exists g,
    ns (final (run_cells (upto combo 8) (fresh 0))) = [("galaxies", VFrame g)] /\
    length (rows g) = 17 /\
    Subseq (rows g) (rows Reference.sample).
Proof.
  destruct (cleaning_drops_the_rows_with_missing_values combo 0 Reference.sample eq_refl)
    as (_ & _ & g & Hn & _ & S & _).
  exists g. split; [exact Hn|]. split; [|exact S].
  vm_compute in Hn. inversion Hn. reflexivity.
Defined.

Lemma sample_rectangular : rectangular Reference.sample.
Proof. repeat constructor. Qed.

Lemma label_is_Mcz_above_half_witness :
  exists g',
    lookup "galaxies" (ns (final (run_cells (upto combo 30) (fresh 0))))
      = Some (VFrame g') /\
    length (rows g') = 17.
Proof.
  destruct (label_is_Mcz_above_half combo 0 Reference.sample eq_refl
              sample_rectangular)
    as (g' & H & Hl & _).
  - vm_compute. reflexivity.
  - exists g'. split; [exact H|]. rewrite Hl. vm_compute. reflexivity.
Defined.

Lemma preds_are_the_columns_correlated_above_half_witness :
  exists p,
    lookup "preds" (ns (final (run_cells (upto combo 10) (fresh 0))))
      = Some (VNames p) /\
    In "S280MAG" p /\ ~ In "Nr" p.
Proof.
  destruct (preds_are_the_columns_correlated_above_half combo 0)
    as (df & p & _ & _ & Hp & _).
  - vm_compute. reflexivity.
  - exists p. split; [exact Hp|].
    vm_compute in Hp. inversion Hp. split.
    + right. left. reflexivity.
    + intros [A|[A|[]]]; discriminate A.
Defined.

Lemma load_failure_ends_the_run_witness :
  run (Reference.library (inl FileNotFoundError)) 0 =
  mkRun [4] (Some FileNotFoundError) (mkKernel [] [ReadCsv "COMBO17.csv"] [] 0%Z).
Proof.
  exact (proj1 (load_failure_ends_the_run
                  (Reference.library (inl FileNotFoundError)) 0
                  FileNotFoundError eq_refl)).
Defined.

(** The reference cross-validation works on clones. *)
Lemma reference_cross_val_score_clones :
  forall (m : estimator Reference.fitted) X y cv,
    cross_val_score combo m X y cv = cross_val_score combo (clone m) X y cv.
Proof.
  intros m X y cv.
  change (Reference.cross_val_score m X y cv
          = Reference.cross_val_score (clone m) X y cv).
  unfold Reference.cross_val_score.
  change (clone (clone m)) with (clone m). reflexivity.
Qed.


Lemma gbc_is_fitted_on_the_test_partition_witness :
  exists s,
    In (Fit "abc" (X_train s) (Y_train s)) (log (final (run combo 0))) /\
    In (Fit "gbc" (X_test s) (Y_test s)) (log (final (run combo 0))) /\
    In (Score "gbc" (X_test s) (Y_test s)) (log (final (run combo 0))).
Proof.
  assert (raised (run combo 0) = None) as R by (vm_compute; reflexivity).
  destruct (gbc_is_fitted_on_the_test_partition combo 0 R)
    as (X & y & lab & s1 & s2 & pa & pa' & pg & pg' & pg'' & _ & _ & Hf & He).
  exists s2.
  remember (log (final (run combo 0))) as l eqn:El in *. clear El.
  assert (forall ev, In ev (fits l) -> In ev l) as Ff
    by (intros ev I; exact (proj1 (proj1 (filter_In _ _ _) I))).
  assert (forall ev, In ev (evaluations l) -> In ev l) as Fe
    by (intros ev I; exact (proj1 (proj1 (filter_In _ _ _) I))).
  split; [apply Ff; rewrite Hf; do 3 right; left; reflexivity|].
  split; [apply Ff; rewrite Hf; do 4 right; left; reflexivity|].
  apply Fe. rewrite He. do 7 right. left. reflexivity.
Defined.

(** On the sample the gradient-boosting classifier is fitted on five rows,
    the rows bound to [x_test2], while the training partition has twelve. *)
Example gbc_on_the_sample :
  exists X y Xtrain,
    fits (log (final (run combo 0))) <> [] /\
    last (fits (log (final (run combo 0)))) (ReadCsv "") = Fit "gbc" X y /\
    lookup "x_test2" (ns (final (run combo 0))) = Some (VMatrix X) /\
    lookup "x_train2" (ns (final (run combo 0))) = Some (VMatrix Xtrain) /\
    length X = 5 /\ length Xtrain = 12.
Proof.
  do 3 eexists. split; [vm_compute; discriminate|].
  split; [vm_compute; reflexivity|].
  split; [vm_compute; reflexivity|].
  split; [vm_compute; reflexivity|].
  split; vm_compute; reflexivity.
Qed.

Lemma galaxies_only_gains_the_label_column_witness : gains_only_the_label combo 0.
Proof.
  apply galaxies_only_gains_the_label_column.
  intros df H. injection H as <-.
  intros [A|[A|[A|[]]]]; discriminate A.
Defined.

(** C9 as stated fails on a table that has a column named [bool] already:
    cell 30 overwrites that column. *)
Lemma existing_bool_column_is_overwritten :
  ~ gains_only_the_label (Reference.library (inr Reference.flagged)) 0.
Proof.
  intros H.
  specialize (H Reference.flagged eq_refl
                (final (run (Reference.library (inr Reference.flagged)) 0))).
  destruct H as [H|(g' & H & Hc & _)].
  - apply (nth_error_In _ 25). vm_compute. reflexivity.
  - vm_compute in H. discriminate H.
  - vm_compute in H. injection H as <-. vm_compute in Hc. discriminate Hc.
Qed.


(** C10 as stated fails on a table whose [Mcz] is constant: the correlation
    of the column with itself is NaN, which is not above 0.5. *)
Lemma constant_Mcz_is_not_selected :
  ~ preds_contain_Mcz (Reference.library (inr Reference.flat)) 0.
Proof.
  intros H. destruct H as (p & Hp & I).
  - vm_compute. reflexivity.
  - vm_compute in Hp. injection Hp as <-. destruct I.
Qed.

Lemma preds_reach_no_model_witness :
  exists p,
    lookup "preds" (ns (final (run_cells (upto combo 10) (fresh 0))))
      = Some (VNames p) /\
    In "Mcz" p.
Proof.
  assert (raised (run_cells (upto combo 10) (fresh 0)) = None) as R
    by (vm_compute; reflexivity).
  destruct (proj1 (preds_reach_no_model combo 0) R) as (df & p & Hr & Hp & Hi).
  exists p. split; [exact Hp|]. apply Hi.
  injection Hr as <-. vm_compute. reflexivity.
Defined.

(** * More of the notebook *)

(** ** Counting and dropping missing values *)

Section Missing.

Lemma filter_isna_nil (l : list cell) :
  existsb isna l = false <-> length (filter isna l) = 0.
Proof.
  induction l as [|c l IH]; simpl; [tauto|].
  destruct (isna c); simpl; [split; discriminate | exact IH].
Qed.

Lemma list_sum_zero (l : list nat) : list_sum l = 0 <-> Forall (fun n => n = 0) l.
Proof.
  induction l as [|n l IH]; simpl.
  - split; [constructor | reflexivity].
  - split.
    + intros H. constructor; [lia | apply IH; lia].
    + intros H. inversion H; subst. simpl. now apply IH.
Qed.

Lemma isnull_sum_zero df :
  isnull_sum df = 0 <-> Forall (fun w => has_missing w = false) (rows df).
Proof.
  unfold isnull_sum. rewrite list_sum_zero, Forall_map.
  split; intros H; (eapply Forall_impl; [|exact H]); intros w Hw;
    now apply filter_isna_nil.
Qed.

Lemma filter_all {A} (f : A -> bool) l :
  filter f l = l <-> Forall (fun a => f a = true) l.
Proof.
  induction l as [|a l IH]; simpl.
  - split; [constructor | reflexivity].
  - destruct (f a) eqn:E.
    + split.
      * intros H. injection H as H. constructor; [exact E | now apply IH].
      * intros H. inversion H; subst. f_equal. now apply IH.
    + split.
      * intros H. exfalso.
        assert (length (filter f l) <= length l) as B by apply filter_length_le.
        rewrite H in B. simpl in B. lia.
      * intros H. inversion H; subst. congruence.
Qed.

Lemma isnull_sum_dropna df : isnull_sum (dropna df) = 0.
Proof.
  apply isnull_sum_zero. unfold dropna. cbn [rows].
  apply Forall_forall. intros w I. apply filter_In in I.
  destruct I as [_ I]. now apply negb_true_iff in I.
Qed.

Lemma dropna_fixed df : dropna df = df <-> isnull_sum df = 0.
Proof.
  rewrite isnull_sum_zero. unfold dropna. destruct df as [cols rs]. cbn [columns rows].
  split.
  - intros H. injection H as H. apply filter_all in H.
    eapply Forall_impl; [|exact H]. intros w. apply negb_true_iff.
  - intros H. f_equal. apply filter_all.
    eapply Forall_impl; [|exact H]. intros w. apply negb_true_iff.
Qed.

Lemma dropped_at_most_isnull_sum df :
  length (rows df) <= length (rows (dropna df)) + isnull_sum df.
Proof.
  unfold dropna, isnull_sum. cbn [rows].
  induction (rows df) as [|w rs IH]; simpl; [lia|].
  unfold has_missing at 1.
  destruct (existsb isna (snd w)) eqn:E; simpl.
  - assert (length (filter isna (snd w)) <> 0) as N.
    { intros Z. apply filter_isna_nil in Z. congruence. }
    lia.
  - lia.
Qed.

End Missing.

(** ** Reading columns *)

Section Columns.

Lemma In_position x l : In x l -> exists i, position x l = Some i.
Proof.
  intros I. destruct (position x l) as [i|] eqn:P; [now exists i|].
  apply position_None in P. contradiction.
Qed.

Lemma getitem_None df col : ~ In col (columns df) -> getitem df col = None.
Proof.
  intros N. unfold getitem. apply position_None in N. now rewrite N.
Qed.

Lemma getitem_position df col i :
  position col (columns df) = Some i ->
  getitem df col = Some (map (cell_at i) (rows df)).
Proof. intros P. unfold getitem. now rewrite P. Qed.

Lemma position_inj a b l i :
  position a l = Some i -> position b l = Some i -> a = b.
Proof.
  revert i. induction l as [|c l IH]; simpl; intros i; [discriminate|].
  destruct (String.eqb_spec c a) as [Ea|Na]; destruct (String.eqb_spec c b) as [Eb|Nb].
  - congruence.
  - intros H. injection H as <-.
    destruct (position b l); simpl; discriminate.
  - destruct (position a l); simpl; [|discriminate].
    intros H. injection H as <-. discriminate.
  - destruct (position a l) as [j|]; simpl; [|discriminate].
    destruct (position b l) as [j'|]; simpl; [|discriminate].
    intros H H'. injection H as H. injection H' as H'.
    assert (j' = j) as -> by lia. now apply (IH j).
Qed.

Lemma position_app_other x y l :
  x <> y -> position x l = None -> position x (l ++ [y]) = None.
Proof.
  intros N. induction l as [|c l IH]; simpl.
  - destruct (String.eqb_spec y x); [congruence | reflexivity].
  - destruct (String.eqb c x); [discriminate|].
    destruct (position x l); simpl; [discriminate|].
    intros _. now rewrite IH.
Qed.

Lemma cell_at_In i (w : row) : i < length (snd w) -> In (cell_at i w) (snd w).
Proof. intros H. unfold cell_at. now apply nth_In. Qed.

Lemma map_set_cells (f : row -> cell) pos rs vs :
  Forall (fun w => forall v, f (set_cell pos w v) = f w) rs ->
  map f (set_cells pos rs vs) = map f rs.
Proof.
  intros F. revert vs. induction F as [|w rs Hw F IH]; intros [|v vs]; simpl;
    try reflexivity.
  now rewrite Hw, IH.
Qed.

Lemma map_set_cells_written (f : row -> cell) pos rs vs :
  length vs = length rs ->
  Forall (fun w => forall v, f (set_cell pos w v) = v) rs ->
  map f (set_cells pos rs vs) = vs.
Proof.
  intros E F. revert vs E. induction F as [|w rs Hw F IH]; intros [|v vs] E;
    simpl in *; try discriminate; [reflexivity|].
  rewrite Hw, IH; [reflexivity | lia].
Qed.

(** [df[name] = vs; df[name]] gives [vs] back. *)
Lemma getitem_setitem_same df name vs :
  rectangular df -> length vs = length (rows df) ->
  getitem (setitem df name vs) name = Some vs.
Proof.
  intros R E. unfold getitem, setitem. cbn [columns rows].
  destruct (position name (columns df)) as [i|] eqn:P.
  - rewrite P. cbn [option_map]. f_equal.
    apply map_set_cells_written; [exact E|].
    eapply Forall_impl; [|exact R]. intros w Hw v. unfold cell_at. cbn [set_cell snd].
    apply nth_replace_nth. rewrite Hw. now apply position_lt with (x := name).
  - rewrite (position_app_new _ _ P). cbn [option_map]. f_equal.
    apply map_set_cells_written; [exact E|].
    eapply Forall_impl; [|exact R]. intros w Hw v. unfold cell_at. cbn [set_cell snd].
    rewrite <- Hw. apply nth_middle.
Qed.

(** [df[name] = vs] leaves every other column as it was. *)
Lemma getitem_setitem_other df name other vs :
  rectangular df -> other <> name ->
  getitem (setitem df name vs) other = getitem df other.
Proof.
  intros R N. unfold getitem, setitem. cbn [columns rows].
  destruct (position name (columns df)) as [j|] eqn:P.
  - destruct (position other (columns df)) as [i|] eqn:Q; [|reflexivity].
    cbn [option_map]. f_equal. apply map_set_cells.
    apply Forall_forall. intros w _ v. unfold cell_at. cbn [set_cell snd].
    apply nth_replace_nth_other. intros <-. apply N.
    now apply (position_inj other name (columns df) j).
  - destruct (position other (columns df)) as [i|] eqn:Q.
    + rewrite (position_app_old _ _ _ _ Q). cbn [option_map]. f_equal.
      apply map_set_cells. eapply Forall_impl; [|exact R].
      intros w Hw v. unfold cell_at. cbn [set_cell snd].
      apply app_nth1. rewrite Hw. now apply position_lt with (x := other).
    + now rewrite (position_app_other _ _ _ N Q).
Qed.

Lemma rectangular_dropna df : rectangular df -> rectangular (dropna df).
Proof.
  unfold rectangular. rewrite dropna_columns. intros R.
  apply Forall_forall. intros w I. apply dropna_In in I.
  rewrite Forall_forall in R. now apply R.
Qed.

End Columns.

Lemma getitem_setitem_defined df name vs :
  getitem (setitem df name vs) name <> None.
Proof.
  unfold getitem, setitem. cbn [columns rows].
  destruct (position name (columns df)) as [i|] eqn:P.
  - rewrite P. discriminate.
  - rewrite (position_app_new _ _ P). discriminate.
Qed.

(** The exception that ended a branch of a run is the library's, or the
    [KeyError] of one of the two columns the notebook reads by name. *)
Ltac blame :=
  let H := fresh in
  intros H; try discriminate H; injection H as <-;
  first
    [ left; reflexivity
    | right; left; reflexivity
    | exfalso;
      match goal with
      | G : getitem (setitem _ _ _) _ = None |- _ =>
          exact (getitem_setitem_defined _ _ _ G)
      | G : getitems ?g (selected ?L ?g) = None |- _ =>
          destruct (getitems_selected L g); congruence
      end
    | right; right; unfold library_raises;
      repeat match goal with
             | |- _ \/ _ => first [ left; solve [repeat eexists; eassumption] | right ]
             end;
      solve [repeat eexists; eassumption] ].

Section ReadOnly.

Context {fitted : Type}.

Lemma binds_name n x : respects (binds n) (@name fitted x) (name x).
Proof.
  intros k1 k2 (<- & H). unfold name.
  destruct (lookup x (ns k1)); simpl; repeat split; assumption.
Qed.

Lemma binds_display n w : respects (binds n) (@display fitted w) (display w).
Proof. intros k1 k2 (<- & H). unfold display, binds; simpl. now repeat split. Qed.

Lemma binds_call {A} n ev (r : exn + A) :
  respects (binds n) (@call fitted A ev r) (call ev r).
Proof. intros k1 k2 (<- & H). unfold call, binds; simpl. now repeat split. Qed.

End ReadOnly.

Ltac binds_prim :=
  first [ apply binds_name | apply binds_display | apply binds_call ].

Section MoreProperties.

Context {fitted : Type}.
Variable L : Library fitted.

(** X1. A table without a column [Mcz] stops the run at cell 10 with
    [KeyError: 'Mcz'], raised by the header of the loop: the cells 4 to 8
    have run, [preds] is left bound to the empty list, and nothing but the
    read was asked of the library. *)
Theorem missing_Mcz_stops_the_run_at_cell_10 (e : Z) (df : DataFrame) :
  read_csv L "COMBO17.csv" = inr df ->
  ~ In "Mcz" (columns df) ->
  run L e =
  mkRun [4; 6; 7; 8; 10] (Some (KeyError "Mcz"))
        (mkKernel [("galaxies", VFrame (dropna df)); ("preds", VNames [])]
                  [ReadCsv "COMBO17.csv"]
                  [VFrame (Pandas.head df); VNames (columns df); VNat (isnull_sum df)]
                  e).
Proof.
  intros Hread Hno. apply position_None in Hno.
  unfold run. cbn. rewrite Hread. cbn.
  erewrite cell_10_run by reflexivity.
  rewrite dropna_columns, Hno. reflexivity.
Qed.

(** X2. A table with [Mcz] but without [S280MAG] passes the correlation
    analysis and stops at cell 13 with [KeyError: 'S280MAG']: neither [x]
    nor [y] is bound, and no model was fitted. *)
Theorem missing_S280MAG_stops_the_run_at_cell_13 (e : Z) (df : DataFrame) :
  read_csv L "COMBO17.csv" = inr df ->
  In "Mcz" (columns df) ->
  ~ In "S280MAG" (columns df) ->
  executed (run L e) = [4; 6; 7; 8; 10; 11; 13] /\
  raised (run L e) = Some (KeyError "S280MAG") /\
  lookup "x" (ns (final (run L e))) = None /\
  lookup "y" (ns (final (run L e))) = None /\
  log (final (run L e)) = [ReadCsv "COMBO17.csv"].
Proof.
  intros Hread Hm Hs.
  destruct (In_position _ _ Hm) as [i Pi].
  destruct (getitems_selected L (dropna df)) as [sub Hsub].
  unfold run. cbn. rewrite Hread. cbn.
  erewrite cell_10_run by reflexivity.
  rewrite dropna_columns, Pi. cbn. rewrite Hsub. cbn.
  unfold column. rewrite (getitem_None (dropna df) "S280MAG")
    by (now rewrite dropna_columns).
  cbn. repeat split; reflexivity.
Qed.

(** X3. The count of missing cells that cell 7 displays tells what cell 8
    does: the cleaned table has no missing cell, it is the loaded table
    itself exactly when the count is zero, and the rows dropped are at most
    as many as the missing cells counted. *)
Theorem missing_count_bounds_the_rows_dropped (e : Z) (df : DataFrame) :
  read_csv L "COMBO17.csv" = inr df ->
  let r := run_cells (upto L 8) (fresh e) in
  exists g,
    out (final r) = [VFrame (Pandas.head df); VNames (columns df); VNat (isnull_sum df)] /\
    lookup "galaxies" (ns (final r)) = Some (VFrame g) /\
    isnull_sum g = 0 /\
    (isnull_sum df = 0 <-> g = df) /\
    length (rows df) <= length (rows g) + isnull_sum df.
Proof.
  intros Hread. cbn. rewrite Hread. cbn.
  exists (dropna df). split; [reflexivity|]. split; [reflexivity|].
  split; [apply isnull_sum_dropna|].
  split; [symmetry; apply dropna_fixed | apply dropped_at_most_isnull_sum].
Qed.

(** X4. Once the correlation analysis has completed, displaying the
    correlations among the selected columns cannot raise: every selected
    name is a column of the table.  The matrix displayed is square, with
    one row and one column per name of [preds]. *)
Theorem correlation_matrix_of_preds_is_displayed (e : Z) :
  raised (run_cells (upto L 10) (fresh e)) = None ->
  raised (run_cells (upto L 11) (fresh e)) = None /\
  exists p entries,
    lookup "preds" (ns (final (run_cells (upto L 11) (fresh e)))) = Some (VNames p) /\
    out (final (run_cells (upto L 11) (fresh e)))
      = out (final (run_cells (upto L 10) (fresh e))) ++ [VCorr p entries] /\
    length entries = length p /\
    Forall (fun line => length line = length p) entries.
Proof.
  cbn. destruct (read_csv L "COMBO17.csv") as [x|df]; cbn; [discriminate|].
  erewrite !cell_10_run by reflexivity.
  destruct (position "Mcz" (columns (dropna df))); cbn; [|discriminate].
  destruct (getitems_selected L (dropna df)) as [sub Hsub]. rewrite Hsub. cbn.
  intros _. split; [reflexivity|].
  do 2 eexists. split; [reflexivity|]. split; [reflexivity|].
  split; [apply length_map|].
  apply Forall_forall. intros line I. apply in_map_iff in I.
  destruct I as (a & <- & _). apply length_map.
Qed.

(** X5. The model inputs are aligned with the cleaned table and hold no
    missing value: [x_rev] has one one-cell line per row, the row's
    [S280MAG], [y] has the row's [Mcz] at the same place, and neither cell
    is missing. *)
Theorem features_and_target_are_aligned (e : Z) (df : DataFrame) :
  read_csv L "COMBO17.csv" = inr df ->
  rectangular df ->
  let r := run_cells (upto L 15) (fresh e) in
  raised r = None ->
  exists m ys,
    lookup "x_rev" (ns (final r)) = Some (VMatrix m) /\
    lookup "y" (ns (final r)) = Some (VSeries ys) /\
    length m = length (rows (dropna df)) /\
    length ys = length (rows (dropna df)) /\
    forall n w, nth_error (rows (dropna df)) n = Some w ->
      exists a b,
        nth_error m n = Some [a] /\ nth_error ys n = Some b /\
        cell_of (dropna df) "S280MAG" w = Some a /\
        cell_of (dropna df) "Mcz" w = Some b /\
        isna a = false /\ isna b = false.
Proof.
  intros Hread Hrect. cbv zeta. cbn. rewrite Hread. symex. intros _.
  repeat match goal with
         | H : Some _ = Some _ |- _ => inversion H; subst; clear H
         end.
  match goal with
  | Hx : getitem (dropna df) "S280MAG" = Some ?xs,
    Hy : getitem (dropna df) "Mcz" = Some ?ys |- _ =>
      rename Hx into HS; rename Hy into HM; exists (reshape_column xs), ys
  end.
  unfold getitem in HS, HM.
  destruct (position "S280MAG" (columns (dropna df))) as [cs|] eqn:PS;
    [|discriminate].
  destruct (position "Mcz" (columns (dropna df))) as [cm|] eqn:PM;
    [|discriminate].
  cbv [option_map] in HS, HM. injection HS as <-. injection HM as <-.
  split; [reflexivity|]. split; [reflexivity|].
  unfold reshape_column. rewrite !length_map.
  split; [reflexivity|]. split; [reflexivity|].
  intros idx rw Hw. exists (cell_at cs rw), (cell_at cm rw).
  split.
  { rewrite map_map.
    exact (map_nth_error (fun w => [cell_at cs w]) idx (rows (dropna df)) Hw). }
  split; [exact (map_nth_error (cell_at cm) idx (rows (dropna df)) Hw)|].
  split; [unfold cell_of; now rewrite PS|].
  split; [unfold cell_of; now rewrite PM|].
  apply nth_error_In in Hw.
  assert (length (snd rw) = length (columns (dropna df))) as Hlen.
  { pose proof (rectangular_dropna df Hrect) as R.
    unfold rectangular in R. rewrite Forall_forall in R. now apply R. }
  apply dropna_In in Hw. destruct Hw as [_ Hc].
  apply complete_has_missing in Hc.
  split; apply Hc, cell_at_In; rewrite Hlen;
    eapply position_lt; eassumption.
Qed.

(** X6. In a run that completes, the second split is of the same matrix as
    the first, with the thresholded target in place of the target; the
    names of the first partition are not reused by the second, and at the
    end both partitions are bound as the splitter returned them. *)
Theorem second_split_is_of_the_thresholded_target (e : Z) (df : DataFrame) :
  read_csv L "COMBO17.csv" = inr df ->
  rectangular df ->
  raised (run L e) = None ->
  exists X y s1 s2,
    train_test_split L (RandomState 42) X y = inr s1 /\
    train_test_split L (GlobalRng e) X (map (fun c => Boolean (gt_half c)) y)
      = inr s2 /\
    lookup "x_train" (ns (final (run L e))) = Some (VMatrix (X_train s1)) /\
    lookup "x_test" (ns (final (run L e))) = Some (VMatrix (X_test s1)) /\
    lookup "y_train" (ns (final (run L e))) = Some (VSeries (Y_train s1)) /\
    lookup "y_test" (ns (final (run L e))) = Some (VSeries (Y_test s1)) /\
    lookup "x_train2" (ns (final (run L e))) = Some (VMatrix (X_train s2)) /\
    lookup "x_test2" (ns (final (run L e))) = Some (VMatrix (X_test s2)) /\
    lookup "y_train2" (ns (final (run L e))) = Some (VSeries (Y_train s2)) /\
    lookup "y_test2" (ns (final (run L e))) = Some (VSeries (Y_test s2)).
Proof.
  intros Hread Hrect. unfold run. cbn. rewrite Hread. symex. intros _.
  repeat match goal with
         | H : Some _ = Some _ |- _ => inversion H; subst; clear H
         | H : inr _ = inr _ |- _ => inversion H; subst; clear H
         end.
  match goal with
  | Hy : getitem (dropna df) "Mcz" = Some ?ys,
    Hl : getitem (setitem (dropna df) "bool" _) "bool" = Some ?lab |- _ =>
      rewrite getitem_setitem_same in Hl;
        [ injection Hl as <-
        | now apply rectangular_dropna
        | rewrite length_map; unfold getitem in Hy;
          destruct (position "Mcz" (columns (dropna df))); [|discriminate];
          cbv [option_map] in Hy; injection Hy as <-; apply length_map ]
  end.
  do 4 eexists. split; [eassumption|]. split; [eassumption|].
  repeat split; reflexivity.
Qed.

(** X7. Writing the label column leaves the feature and the target as
    they were read, whether or not the table had a column named [bool]:
    after cell 30, [galaxies['S280MAG']] and [galaxies['Mcz']] are still
    what [x] and [y] are bound to. *)
Theorem labelling_keeps_feature_and_target (e : Z) (df : DataFrame) :
  read_csv L "COMBO17.csv" = inr df ->
  rectangular df ->
  let r := run_cells (upto L 30) (fresh e) in
  raised r = None ->
  exists g' xs ys,
    lookup "galaxies" (ns (final r)) = Some (VFrame g') /\
    lookup "x" (ns (final r)) = Some (VSeries xs) /\
    lookup "y" (ns (final r)) = Some (VSeries ys) /\
    getitem g' "S280MAG" = Some xs /\
    getitem g' "Mcz" = Some ys /\
    getitem (dropna df) "S280MAG" = Some xs /\
    getitem (dropna df) "Mcz" = Some ys.
Proof.
  intros Hread Hrect. cbv zeta. cbn. rewrite Hread. symex. intros _.
  repeat match goal with
         | H : Some _ = Some _ |- _ => inversion H; subst; clear H
         end.
  do 3 eexists. split; [reflexivity|]. split; [reflexivity|].
  split; [reflexivity|].
  pose proof (rectangular_dropna df Hrect) as R.
  rewrite !getitem_setitem_other by (exact R || discriminate).
  repeat split; assumption.
Qed.


(** X9. The grid search is over the regressor as cell 18 left it, the
    three by two grid of the cell and five folds, and is fitted on the
    training partition of the first split; what cell 23 displays is the
    parameter set that search returned.  The search leaves [abr] as it
    was: at the end [abr] still holds the fit of cell 18. *)
Theorem grid_search_is_fitted_on_the_training_partition (e : Z) :
  let r := run_cells (upto L 23) (fresh e) in
  raised r = None ->
  exists X y s f best,
    train_test_split L (RandomState 42) X y = inr s /\
    fit L (mkEstimator AdaBoostRegressor (Some 42%Z) None None)
        (X_train s) (Y_train s) = inr f /\
    let abr := fitted_with (mkEstimator AdaBoostRegressor (Some 42%Z) None None) f in
    let grid := [("n_estimators", [PInt 25; PInt 50; PInt 100]);
                 ("loss", [PStr "linear"; PStr "square"])] in
    grid_search_fit L (mkGridSearchCV abr grid 5 None) (X_train s) (Y_train s)
      = inr best /\
    lookup "abr" (ns (final r)) = Some (VEstimator abr) /\
    lookup "gs" (ns (final r))
      = Some (VGridSearch (mkGridSearchCV abr grid 5 (Some best))) /\
    last (out (final r)) (VNat 0) = VParams (fst best).
Proof.
  cbv zeta. symex. intros _.
  repeat match goal with
         | H : Some _ = Some _ |- _ => inversion H; subst; clear H
         end.
  do 5 eexists. split; [eassumption|]. split; [eassumption|].
  split; [eassumption|]. repeat split; reflexivity.
Qed.

(** X10. The scores the classification stage displays are the library's
    metrics of the test labels of the second split against what the
    classifier predicts on the test features, the true labels first: for
    each classifier its accuracy, precision and recall, and for the second
    its confusion matrix.  Each prediction is of the classifier as its
    [fit] left it. *)
Theorem displayed_scores_are_metrics_on_the_test_partition (e : Z) :
  raised (run L e) = None ->
  exists s fa fg pa pg a p r a' p' r' m,
    lookup "x_test2" (ns (final (run L e))) = Some (VMatrix (X_test s)) /\
    lookup "y_test2" (ns (final (run L e))) = Some (VSeries (Y_test s)) /\
    let abc := fitted_with (mkEstimator AdaBoostClassifier (Some 42%Z) None None) fa in
    let gbc :=
      fitted_with (mkEstimator GradientBoostingClassifier (Some 42%Z) None None) fg in
    lookup "abc" (ns (final (run L e))) = Some (VEstimator abc) /\
    lookup "gbc" (ns (final (run L e))) = Some (VEstimator gbc) /\
    score L abc (X_test s) (Y_test s) = inr a /\
    predict L abc (X_test s) = inr pa /\
    precision_score L (Y_test s) pa = inr p /\
    recall_score L (Y_test s) pa = inr r /\
    score L gbc (X_test s) (Y_test s) = inr a' /\
    predict L gbc (X_test s) = inr pg /\
    precision_score L (Y_test s) pg = inr p' /\
    recall_score L (Y_test s) pg = inr r' /\
    confusion_matrix L (Y_test s) pg = inr m /\
    scores (out (final (run L e))) =
      [VFloat a; VFloat p; VFloat r; VFloat a'; VFloat p'; VFloat r'; VCounts m].
Proof.
  unfold run. symex. intros _.
  repeat match goal with
         | H : Some _ = Some _ |- _ => inversion H; subst; clear H
         | H : inr _ = inr _ |- _ => inversion H; subst; clear H
         end.
  match goal with
  | H : train_test_split L (GlobalRng e) _ _ = inr ?s2 |- _ => exists s2
  end.
  do 11 eexists. do 4 (split; [reflexivity|]).
  repeat (split; [eassumption|]). reflexivity.
Qed.

(** X11. The cells that end in an expression (the displays, the plots, the
    cross-validations, the scores and the metrics) assign nothing:
    whatever the kernel they start in and whether or not they raise, they
    leave every name bound as it was. *)
Theorem expression_cells_bind_nothing :
  Forall (fun c : nat * M fitted unit =>
            forall k, ns (snd (snd c k)) = ns k)
         (expression_cells L).
Proof.
  assert (Forall (fun c : nat * M fitted unit =>
                    forall n, respects (binds n) (snd c) (snd c))
                 (expression_cells L)) as F.
  { unfold expression_cells.
    repeat (constructor; [cbn [snd]; intros n; oblivious binds_prim |]).
    constructor. }
  eapply Forall_impl; [|exact F]. intros c Hc k.
  now destruct (Hc (ns k) k k (conj eq_refl eq_refl)) as (_ & _ & Hn).
Qed.

End MoreProperties.

(** ** More of the notebook, on the reference library *)

Lemma missing_Mcz_stops_the_run_at_cell_10_witness :
  raised (run (Reference.library (inr no_redshift)) 0) = Some (KeyError "Mcz") /\
  lookup "preds" (ns (final (run (Reference.library (inr no_redshift)) 0)))
    = Some (VNames []).
Proof.
  assert (~ In "Mcz" (columns no_redshift)) as N
    by (intros [A|[A|[]]]; discriminate A).
  rewrite (missing_Mcz_stops_the_run_at_cell_10
             (Reference.library (inr no_redshift)) 0 no_redshift eq_refl N).
  split; reflexivity.
Defined.

Lemma missing_S280MAG_stops_the_run_at_cell_13_witness :
  executed (run (Reference.library (inr no_magnitude)) 0) = [4; 6; 7; 8; 10; 11; 13] /\
  raised (run (Reference.library (inr no_magnitude)) 0) = Some (KeyError "S280MAG").
Proof.
  assert (In "Mcz" (columns no_magnitude)) as I by (right; left; reflexivity).
  assert (~ In "S280MAG" (columns no_magnitude)) as N
    by (intros [A|[A|[]]]; discriminate A).
  destruct (missing_S280MAG_stops_the_run_at_cell_13
              (Reference.library (inr no_magnitude)) 0 no_magnitude eq_refl I N)
    as (He & Hr & _).
  split; assumption.
Defined.

Lemma missing_count_bounds_the_rows_dropped_witness :
  exists g,
    lookup "galaxies" (ns (final (run_cells (upto combo 8) (fresh 0))))
      = Some (VFrame g) /\
    isnull_sum g = 0 /\
    length (rows Reference.sample) <= length (rows g) + 1.
Proof.
  destruct (missing_count_bounds_the_rows_dropped combo 0 Reference.sample eq_refl)
    as (g & _ & Hg & Hz & _ & Hl).
  exists g. split; [exact Hg|]. split; [exact Hz|].
  assert (isnull_sum Reference.sample = 1) as E by (vm_compute; reflexivity).
  rewrite E in Hl. exact Hl.
Defined.

Lemma correlation_matrix_of_preds_is_displayed_witness :
  raised (run_cells (upto combo 11) (fresh 0)) = None.
Proof.
  assert (raised (run_cells (upto combo 10) (fresh 0)) = None) as R
    by (vm_compute; reflexivity).
  exact (proj1 (correlation_matrix_of_preds_is_displayed combo 0 R)).
Defined.

Lemma features_and_target_are_aligned_witness :
  exists m ys,
    lookup "x_rev" (ns (final (run_cells (upto combo 15) (fresh 0)))) = Some (VMatrix m) /\
    lookup "y" (ns (final (run_cells (upto combo 15) (fresh 0)))) = Some (VSeries ys) /\
    length m = 17 /\ length ys = 17.
Proof.
  assert (raised (run_cells (upto combo 15) (fresh 0)) = None) as R
    by (vm_compute; reflexivity).
  destruct (features_and_target_are_aligned combo 0 Reference.sample eq_refl
              sample_rectangular R)
    as (m & ys & Hm & Hy & Lm & Ly & _).
  exists m, ys. split; [exact Hm|]. split; [exact Hy|].
  assert (length (rows (dropna Reference.sample)) = 17) as E
    by (vm_compute; reflexivity).
  rewrite E in Lm, Ly. split; assumption.
Defined.

Lemma second_split_is_of_the_thresholded_target_witness :
  exists s1 s2,
    lookup "x_train" (ns (final (run combo 0))) = Some (VMatrix (X_train s1)) /\
    lookup "x_train2" (ns (final (run combo 0))) = Some (VMatrix (X_train s2)).
Proof.
  assert (raised (run combo 0) = None) as R by (vm_compute; reflexivity).
  destruct (second_split_is_of_the_thresholded_target combo 0 Reference.sample
              eq_refl sample_rectangular R)
    as (X & y & s1 & s2 & _ & _ & H1 & _ & _ & _ & H2 & _).
  exists s1, s2. split; assumption.
Defined.

Lemma labelling_keeps_feature_and_target_witness :
  exists g' xs,
    lookup "galaxies" (ns (final (run_cells (upto combo 30) (fresh 0))))
      = Some (VFrame g') /\
    getitem g' "S280MAG" = Some xs /\
    getitem (dropna Reference.sample) "S280MAG" = Some xs.
Proof.
  assert (raised (run_cells (upto combo 30) (fresh 0)) = None) as R
    by (vm_compute; reflexivity).
  destruct (labelling_keeps_feature_and_target combo 0 Reference.sample
              eq_refl sample_rectangular R)
    as (g' & xs & ys & Hg & _ & _ & Hx & _ & Hx0 & _).
  exists g', xs. repeat split; assumption.
Defined.


Lemma grid_search_is_fitted_on_the_training_partition_witness :
  exists best : params * Reference.fitted,
    last (out (final (run_cells (upto combo 23) (fresh 0)))) (VNat 0)
      = VParams (fst best).
Proof.
  assert (raised (run_cells (upto combo 23) (fresh 0)) = None) as R
    by (vm_compute; reflexivity).
  destruct (grid_search_is_fitted_on_the_training_partition combo 0 R)
    as (X & y & s & f & best & _ & _ & _ & _ & _ & H).
  exists best. exact H.
Defined.

Lemma displayed_scores_are_metrics_on_the_test_partition_witness :
  exists a p r a' p' r' m,
    scores (out (final (run combo 0))) =
      [VFloat a; VFloat p; VFloat r; VFloat a'; VFloat p'; VFloat r'; VCounts m].
Proof.
  assert (raised (run combo 0) = None) as R by (vm_compute; reflexivity).
  destruct (displayed_scores_are_metrics_on_the_test_partition combo 0 R)
    as (s & fa & fg & pa & pg & a & p & r & a' & p' & r' & m & H).
  exists a, p, r, a', p', r', m.
  exact (proj2 (proj2 (proj2 (proj2 (proj2 (proj2 (proj2 (proj2 (proj2
          (proj2 (proj2 (proj2 (proj2 H))))))))))))).
Defined.
